(** * optionstools: strategy definitions and optimizers

    A shallow embedding of [optionstools/strategy.py], [optionstools/util.py]
    and [optionstools/optimizer.py].

    Numbers.  Python floats and ints are modelled by exact rationals [Q]
    (ints that stay ints, such as catalog expirations and sign flags, by [Z]).
    Comparison, [min], [max] and [abs] are the exact ones; [/] raises
    [ZeroDivisionError] on a zero divisor, as it does on Python numbers.

    Objects.  The leg dicts listed in a strategy class' [options] attribute
    are class-level objects shared by every instance of the class; they live
    in a [heap] indexed by the class, and a list of such dicts is a list of
    references into it.

    Collaborators.  The pricing functions ([optionstools.pricing], a compiled
    extension) and the SLSQP solver ([scipy.optimize.minimize]) are parameters
    of the development. *)

From Stdlib Require Import QArith Qabs Lqa ZArith List String Ascii Bool Lia.
Import ListNotations.
Open Scope Q_scope.

(** ** Python numbers *)

Definition Qltb (a b : Q) : bool := negb (Qle_bool b a).

(** [max(a, b)]: the first argument unless the second is strictly greater. *)
Definition py_max (a b : Q) : Q := if Qltb a b then b else a.

(** [min(a, b)]: the first argument unless the second is strictly smaller. *)
Definition py_min (a b : Q) : Q := if Qltb b a then b else a.

Definition py_maxZ (a b : Z) : Z := if (a <? b)%Z then b else a.
Definition py_minZ (a b : Z) : Z := if (b <? a)%Z then b else a.

(** ** Exceptions and fallible results *)

Inductive exn : Type :=
| UnoptimizedStrategyOptimizerException (msg : string)
| AttributeError (attribute : string)
| KeyError (key : string)
| IndexError (msg : string)
| ValueError (msg : string)
| ZeroDivisionError.

Inductive result (A : Type) : Type :=
| Ok (a : A)
| Raise (e : exn).
Arguments Ok {A} a.
Arguments Raise {A} e.

Definition bind {A B : Type} (r : result A) (k : A -> result B) : result B :=
  match r with
  | Ok a => k a
  | Raise e => Raise e
  end.

Notation "x <- e ;; k" := (bind e (fun x => k))
  (at level 61, e at next level, right associativity).

Fixpoint mapM {A B : Type} (f : A -> result B) (l : list A) : result (list B) :=
  match l with
  | [] => Ok []
  | a :: l' => b <- f a ;; bs <- mapM f l' ;; Ok (b :: bs)
  end.

Definition must_run_first : string := "Must run StrategyOptimizer.optimize() first".

(** [a / b] on Python numbers. *)
Definition py_div (a b : Q) : result Q :=
  if Qeq_bool b 0 then Raise ZeroDivisionError else Ok (a / b).

(** [min(xs)] and [max(xs)] of a sequence: [ValueError] when it is empty. *)
Definition py_min_seq (xs : list Q) : result Q :=
  match xs with
  | [] => Raise (ValueError "min() arg is an empty sequence")
  | x :: xs' => Ok (fold_left py_min xs' x)
  end.

Definition py_max_seq (xs : list Q) : result Q :=
  match xs with
  | [] => Raise (ValueError "max() arg is an empty sequence")
  | x :: xs' => Ok (fold_left py_max xs' x)
  end.

Definition py_min_seqZ (xs : list Z) : result Z :=
  match xs with
  | [] => Raise (ValueError "min() arg is an empty sequence")
  | x :: xs' => Ok (fold_left py_minZ xs' x)
  end.

Definition py_max_seqZ (xs : list Z) : result Z :=
  match xs with
  | [] => Raise (ValueError "max() arg is an empty sequence")
  | x :: xs' => Ok (fold_left py_maxZ xs' x)
  end.

(** ** Strings: [str.lower] on ASCII *)

Definition lower_ascii (c : ascii) : ascii :=
  let n := nat_of_ascii c in
  if ((65 <=? n) && (n <=? 90))%nat then ascii_of_nat (n + 32) else c.

Fixpoint lower (s : string) : string :=
  match s with
  | EmptyString => EmptyString
  | String c s' => String (lower_ascii c) (lower s')
  end.

(** ** util.py *)

Definition convert_action_string_to_flags (action_string : string) : Z * Z :=
  if String.eqb action_string "buy" then (1, -1)%Z else (-1, 1)%Z.

(** ** Data model (strategy.py) *)

(** A leg dict: [type] and [action] are there from the class definition,
    the other three keys are attached by [best_strategy]. *)
Record leg : Type := mkLeg {
  type : string;
  action : string;
  strike : option Q;
  days_to_expiration : option Q;
  quantity : option Q
}.

Definition leg_of (ty act : string) : leg := mkLeg ty act None None None.

(** The available-options catalog: a dict from ['CALL']/['PUT'] to a dict
    from days to expiration to the strikes; association lists in insertion
    order, which is the order Python iterates a dict in. *)
Definition chain : Type := list (Z * list Q).
Definition catalog : Type := list (string * chain).

Fixpoint dict_get {V : Type} (k : string) (d : list (string * V)) : result V :=
  match d with
  | [] => Raise (KeyError k)
  | (k', v) :: d' => if String.eqb k k' then Ok v else dict_get k d'
  end.

Inductive strategy_class : Type :=
| BullCallSpread
| BearPutSpread
| ProtectiveCollar
| LongStrangle
| LongStraddle.

Definition strategy_class_eqb (a b : strategy_class) : bool :=
  match a, b with
  | BullCallSpread, BullCallSpread
  | BearPutSpread, BearPutSpread
  | ProtectiveCollar, ProtectiveCollar
  | LongStrangle, LongStrangle
  | LongStraddle, LongStraddle => true
  | _, _ => false
  end.

(** The class attribute [options] as written in the class bodies. *)
Definition class_options (c : strategy_class) : list leg :=
  match c with
  | BullCallSpread => [leg_of "call" "buy"; leg_of "call" "sell"]
  | BearPutSpread => [leg_of "put" "buy"; leg_of "put" "sell"]
  | ProtectiveCollar => [leg_of "put" "buy"; leg_of "call" "sell"]
  | LongStrangle => [leg_of "call" "buy"; leg_of "put" "buy"]
  | LongStraddle => [leg_of "put" "buy"; leg_of "call" "buy"]
  end.

(** The class-level leg dicts, per class: the one piece of state that
    outlives and is shared between strategy and optimizer instances. *)
Definition heap : Type := strategy_class -> list leg.

Definition initial_heap : heap := class_options.

Definition upd (h : heap) (c : strategy_class) (legs : list leg) : heap :=
  fun c' => if strategy_class_eqb c c' then legs else h c'.

(** A reference to the [i]-th dict of a class' [options] list. *)
Definition ref : Type := (strategy_class * nat)%type.

(** An instance of a strategy class (the dataclass fields). *)
Record OptionsStrategy : Type := mkStrategy {
  cls : strategy_class;
  underlying_price : Q;
  min_days_to_expiration : Z;
  available_options : catalog
}.

(** [self.options]: the class attribute, i.e. the shared dicts. *)
Definition options (h : heap) (s : OptionsStrategy) : list leg := h (cls s).

Definition leg_count (h : heap) (s : OptionsStrategy) : nat := List.length (options h s).

Record constraint_system : Type := mkDefinition {
  A : list (list Q);
  lower_bound : list Q;
  upper_bound : list Q
}.

Definition definition (s : OptionsStrategy) : constraint_system :=
  match cls s with
  | BullCallSpread =>
      mkDefinition [[0; 1; 0; -1; 0]; [0; 0; 1; 0; -1]] [-100000; 0] [-1; 0]
  | BearPutSpread =>
      mkDefinition [[0; 1; 0; -1; 0]; [0; 0; 1; 0; -1]] [1; 0] [10000; 0]
  | ProtectiveCollar => mkDefinition [[0; 0; 1; 0; -1]] [0] [0]
  | LongStrangle => mkDefinition [[0; 0; 1; 0; -1]] [0] [0]
  | LongStraddle =>
      mkDefinition [[0; 1; 0; -1; 0]; [0; 0; 1; 0; -1]] [0; 0] [0; 0]
  end.

Definition x0 (s : OptionsStrategy) : list Q :=
  let S := underlying_price s in
  let d := inject_Z (min_days_to_expiration s) in
  match cls s with
  | BullCallSpread => [1; S - 1; d + 1; S + 1; d + 1]
  | BearPutSpread => [1; S + 1; d; S - 1; d]
  | ProtectiveCollar => [1; S - 1; d; S + 1; d]
  | LongStrangle => [1; S + 1; d; S - 1; d]
  | LongStraddle => [1; S; d; S; d]
  end.

(** The four statistics every [bounds] property takes of one option type:
    [min]/[max] of the expirations, then of the per-expiration
    [min]/[max] strikes, in this order. *)
Record chain_stats : Type := mkStats {
  min_days : Z;
  max_days : Z;
  min_strike : Q;
  max_strike : Q
}.

Definition stats_of (key : string) (cat : catalog) : result chain_stats :=
  by_days <- dict_get key cat ;;
  mn_d <- py_min_seqZ (map fst by_days) ;;
  mx_d <- py_max_seqZ (map fst by_days) ;;
  mins <- mapM (fun e => py_min_seq (snd e)) by_days ;;
  mn_k <- py_min_seq mins ;;
  maxs <- mapM (fun e => py_max_seq (snd e)) by_days ;;
  mx_k <- py_max_seq maxs ;;
  Ok (mkStats mn_d mx_d mn_k mx_k).

(** [(max(min_days, self.min_days_to_expiration + 1), max_days)] *)
Definition days_bound (s : OptionsStrategy) (st : chain_stats) : Q * Q :=
  (inject_Z (py_maxZ (min_days st) (min_days_to_expiration s + 1)),
   inject_Z (max_days st)).

Definition bounds (s : OptionsStrategy) : result (list (Q * Q)) :=
  let S := underlying_price s in
  let cat := available_options s in
  match cls s with
  | BullCallSpread =>
      c <- stats_of "CALL" cat ;;
      Ok [(1, 1000);
          (min_strike c, S * (1001 # 1000));
          days_bound s c;
          (S * (999 # 1000), max_strike c);
          days_bound s c]
  | BearPutSpread =>
      p <- stats_of "PUT" cat ;;
      Ok [(1, 1000);
          (min_strike p, max_strike p);
          days_bound s p;
          (min_strike p, max_strike p);
          days_bound s p]
  | ProtectiveCollar =>
      p <- stats_of "PUT" cat ;;
      c <- stats_of "CALL" cat ;;
      Ok [(1 # 1000, 1000);
          (min_strike p, S * (99 # 100));
          days_bound s p;
          (S * (101 # 100), max_strike c);
          days_bound s c]
  | LongStrangle =>
      p <- stats_of "PUT" cat ;;
      c <- stats_of "CALL" cat ;;
      Ok [(1, 1000);
          (S * (1001 # 1000), max_strike c);
          days_bound s c;
          (min_strike p, S * (999 # 1000));
          days_bound s p]
  | LongStraddle =>
      p <- stats_of "PUT" cat ;;
      c <- stats_of "CALL" cat ;;
      Ok [(1, 1000);
          (min_strike p, max_strike p);
          days_bound s p;
          (min_strike c, max_strike c);
          days_bound s c]
  end.

(** ** optimizer.py *)

(** The constructor arguments shared by the three optimizer classes. *)
Record market : Type := mkMarket {
  current_price : Q;
  future_price : Q;
  days_forward : Z;
  sigma : Q;
  r : Q;
  max_premium : Q
}.

(** [scipy.optimize.OptimizeResult], as far as the code reads it. *)
Record OptimizeResult : Type := mkResult {
  opt_x : list Q;
  opt_fun : Q
}.

(** The arguments handed to [scipy.optimize.minimize]: objective, start,
    per-variable bounds, the [NonlinearConstraint] (function and interval),
    the [LinearConstraint] and the iteration cap. *)
Record problem : Type := mkProblem {
  objective : list Q -> result Q;
  start : list Q;
  var_bounds : list (Q * Q);
  nl_fun : list Q -> result Q;
  nl_lb : Q;
  nl_ub : Q;
  linear : constraint_system;
  maxiter : Z
}.

Record StrategyOptimizerBS : Type := mkStrategyOptimizerBS {
  so_market : market;
  so_strategy : OptionsStrategy;
  so_is_optimized : bool;
  _optimization_result : option OptimizeResult
}.

(** One catalog entry picked for a leg: [[call_flag, buy_flag, strikes, days]]. *)
Record entry : Type := mkEntry {
  e_call_flag : Z;
  e_buy_flag : Z;
  e_strike : Q;
  e_days : Z
}.

Record GridSearchBS : Type := mkGridSearchBS {
  gs_market : market;
  gs_strategy : OptionsStrategy;
  gs_is_optimized : bool;
  _max_profit : option Q;
  _opt_strategy : option (list entry);
  _quantity : option Q
}.

Record ParallelStrategyOptimizerBS : Type := mkParallelStrategyOptimizerBS {
  ps_market : market;
  strategies : list OptionsStrategy;
  ps_is_optimized : bool;
  _strategy_optimizers : list StrategyOptimizerBS
}.

(** [__init__] of the three classes. *)
Definition StrategyOptimizerBS_init (s : OptionsStrategy) (m : market) : StrategyOptimizerBS :=
  mkStrategyOptimizerBS m s false None.

Definition GridSearchBS_init (s : OptionsStrategy) (m : market) : GridSearchBS :=
  mkGridSearchBS m s false None None None.

Definition ParallelStrategyOptimizerBS_init (ss : list OptionsStrategy) (m : market)
  : ParallelStrategyOptimizerBS :=
  mkParallelStrategyOptimizerBS m ss false (map (fun s => StrategyOptimizerBS_init s m) ss).

Definition unoptimized {T : Type} : result T :=
  Raise (UnoptimizedStrategyOptimizerException must_run_first).

Definition call_flag_of (option : leg) : Z :=
  if String.eqb (type option) "call" then 1%Z else (-1)%Z.

(** *** Array helpers *)

(** [sum(xs)] *)
Definition py_sum (xs : list Q) : Q := fold_left Qplus xs 0.

Fixpoint pairs (l : list Q) : list (Q * Q) :=
  match l with
  | k :: t :: l' => (k, t) :: pairs l'
  | _ => []
  end.

(** [a.reshape(n, 2)] *)
Definition reshape (n : nat) (a : list Q) : result (list (Q * Q)) :=
  if Nat.eqb (List.length a) (2 * n) then Ok (pairs a)
  else Raise (ValueError "cannot reshape array").

(** [l[0::2]] *)
Fixpoint stride2 (l : list Q) : list Q :=
  match l with
  | [] => []
  | [a] => [a]
  | a :: _ :: l' => a :: stride2 l'
  end.

(** [l[a:b]] with Python's treatment of negative and out-of-range indices. *)
Definition clamp_index (n i : Z) : Z :=
  if (i <? 0)%Z then Z.max (i + n) 0 else Z.min i n.

Definition py_slice {T : Type} (l : list T) (a b : Z) : list T :=
  let n := Z.of_nat (List.length l) in
  let lo := clamp_index n a in
  let hi := clamp_index n b in
  firstn (Z.to_nat (hi - lo)) (skipn (Z.to_nat lo) l).

Fixpoint foldM {T S : Type} (f : S -> T -> result S) (l : list T) (acc : S) : result S :=
  match l with
  | [] => Ok acc
  | a :: l' => acc' <- f acc a ;; foldM f l' acc'
  end.

(** [d[name]] on a leg dict for one of the attached keys. *)
Definition get_key (name : string) (v : option Q) : result Q :=
  match v with
  | Some q => Ok q
  | None => Raise (KeyError name)
  end.

(** The three assignments in the loop of [best_strategy]. *)
Definition set_solution (option : leg) (k t q : Q) : leg :=
  mkLeg (type option) (action option) (Some k) (Some t) (Some q).

(** [for option, k, t in zip(best_strategy, x[1::2], x[2::2])]: the dicts
    are updated in place, the loop stops at the shortest of the three. *)
Fixpoint annotate (q : Q) (legs : list leg) (ks ts : list Q) : list leg :=
  match legs, ks, ts with
  | option :: legs', k :: ks', t :: ts' => set_solution option k t q :: annotate q legs' ks' ts'
  | _, _, _ => legs
  end.

(** The dict behind a reference; [best_strategy] only hands out references
    to existing dicts, so the default is never returned for them. *)
Definition read (h : heap) (p : ref) : leg := nth (snd p) (h (fst p)) (leg_of "" "").

(** *** Grid-search helpers *)

Inductive bucket : Type := call_buy | call_sell | put_buy | put_sell.

Record buckets : Type := mkBuckets {
  b_call_buy : list entry;
  b_call_sell : list entry;
  b_put_buy : list entry;
  b_put_sell : list entry
}.

Definition get_bucket (bs : buckets) (b : bucket) : list entry :=
  match b with
  | call_buy => b_call_buy bs
  | call_sell => b_call_sell bs
  | put_buy => b_put_buy bs
  | put_sell => b_put_sell bs
  end.

Definition extend_bucket (bs : buckets) (b : bucket) (es : list entry) : buckets :=
  match b with
  | call_buy => mkBuckets (b_call_buy bs ++ es) (b_call_sell bs) (b_put_buy bs) (b_put_sell bs)
  | call_sell => mkBuckets (b_call_buy bs) (b_call_sell bs ++ es) (b_put_buy bs) (b_put_sell bs)
  | put_buy => mkBuckets (b_call_buy bs) (b_call_sell bs) (b_put_buy bs ++ es) (b_put_sell bs)
  | put_sell => mkBuckets (b_call_buy bs) (b_call_sell bs) (b_put_buy bs) (b_put_sell bs ++ es)
  end.

(** The list the innermost [append] goes to. *)
Definition append_target (option : leg) : bucket :=
  if String.eqb (type option) "call"
  then (if String.eqb (action option) "buy" then call_buy else call_sell)
  else (if String.eqb (action option) "buy" then put_buy else put_sell).

(** The list [combos.append] takes after the catalog loop. *)
Definition combo_target (option : leg) : bucket :=
  if String.eqb (type option) "call" && String.eqb (action option) "buy" then call_buy
  else if String.eqb (type option) "call" && String.eqb (action option) "sell" then call_sell
  else if String.eqb (type option) "put" && String.eqb (action option) "buy" then put_buy
  else put_sell.

(** Everything one leg appends: the catalog keys whose lower case is the
    leg's type, in iteration order, then days, then strikes.  A dict has
    one value per key, so [catalog[available]] is the value iterated with
    the key. *)
Definition leg_entries (cat : catalog) (option : leg) : list entry :=
  let buy_flag := if String.eqb (action option) "buy" then 1%Z else (-1)%Z in
  let call_flag := call_flag_of option in
  flat_map (fun kv : string * chain =>
    if String.eqb (type option) (lower (fst kv))
    then flat_map (fun ds : Z * list Q =>
           map (fun strikes => mkEntry call_flag buy_flag strikes (fst ds)) (snd ds))
         (snd kv)
    else []) cat.

(** One pass of the loop over [self.strategy.options].  [combos] holds the
    four lists by reference, so what counts is their final content. *)
Definition build_step (cat : catalog) (st : buckets * list bucket) (option : leg)
  : buckets * list bucket :=
  (extend_bucket (fst st) (append_target option) (leg_entries cat option),
   snd st ++ [combo_target option]).

Definition build (cat : catalog) (opts : list leg) : buckets * list bucket :=
  fold_left (build_step cat) opts (mkBuckets [] [] [] [], []).

(** [itertools.product] of the lists [ls]: the last factor varies fastest. *)
Fixpoint product {T : Type} (ls : list (list T)) : list (list T) :=
  match ls with
  | [] => [[]]
  | l :: ls' => flat_map (fun a => map (cons a) (product ls')) l
  end.

(** [strats]: the product of the lists in [combos] *)
Definition strats (cat : catalog) (opts : list leg) : list (list entry) :=
  let st := build cat opts in
  product (map (get_bucket (fst st)) (snd st)).

(** ** Well-formed inputs *)

(** No method assigns the [type] or [action] key of a leg dict or resizes
    an [options] list, so every heap the program reaches still shows the
    legs the classes declare. *)
Definition type_action (l : leg) : string * string := (type l, action l).

Definition declared (h : heap) : Prop :=
  forall c, map type_action (h c) = map type_action (class_options c).

Definition is_empty {T : Type} (l : list T) : bool :=
  match l with
  | [] => true
  | _ :: _ => false
  end.

(** The catalog has the key, at least one expiration under it and at least
    one strike under every expiration. *)
Definition populated (key : string) (cat : catalog) : bool :=
  match dict_get key cat with
  | Ok by_days =>
      negb (is_empty by_days) && forallb (fun e : Z * list Q => negb (is_empty (snd e))) by_days
  | Raise _ => false
  end.

(** The catalog keys the [bounds] property of a class reads. *)
Definition consulted (c : strategy_class) : list string :=
  match c with
  | BullCallSpread => ["CALL"%string]
  | BearPutSpread => ["PUT"%string]
  | ProtectiveCollar | LongStrangle | LongStraddle => ["PUT"%string; "CALL"%string]
  end.

(** The dicts of the optimizer's strategy class after [best_strategy] has
    written the solver's vector [x] into them. *)
Definition solved_legs (h : heap) (o : StrategyOptimizerBS) (x : list Q) : list leg :=
  annotate (hd 0 x) (h (cls (so_strategy o))) (stride2 (tl x)) (stride2 (tl (tl x))).

(** A value lies within a [(low, high)] pair of [bounds]. *)
Definition within (b : Q * Q) (v : Q) : Prop := fst b <= v /\ v <= snd b.


(** *** What the solver is asked for *)




(** ** Sample inputs *)

(** The catalog of [runtests.py]. *)
Definition test_chain : chain :=
  [(30%Z, [5; 50; 100; 150; 200]);
   (60%Z, [5; 50; 100; 150; 200]);
   (200%Z, [5; 50; 100; 150; 200]);
   (100%Z, [5; 50; 100; 150; 200]);
   (365%Z, [5; 50; 100; 150; 200])].

Definition test_catalog : catalog :=
  [("CALL"%string, test_chain); ("PUT"%string, test_chain)].

(** The market of the bullish tests: [100, 105, 30, 0.25, .01, 100]. *)
Definition test_market : market := mkMarket 100 105 30%Z (1 # 4) (1 # 100) 100.

(** Modelled from the spec: the pricing function
    [black_scholes_euro_option_price] of [optionstools.pricing] is not
    among the sources.  For the runs on the samples it is the intrinsic
    value, which the spec asks of the price at zero days, plus a time value
    [sigma * T]. *)
Definition sample_price (call_flag : Z) (S K T r sigma : Q) : Q :=
  py_max 0 (inject_Z call_flag * (S - K)) + sigma * T.

(** Modelled from the spec: [black_scholes_euro_option_price_fixed] of
    [optionstools.pricing] is not among the sources either.  For the runs
    on the samples it has flat premiums, 1 when opening (no [days_forward])
    and 3 when closing, scaled by the directional sign: paid when the
    action flag is 1, received when it is -1. *)
Definition sample_price_fixed (action_flag call_flag : Z) (S r sigma : Q)
    (days_forward : option Z) (K T : Q) : Q :=
  match days_forward with
  | None => - inject_Z action_flag * 1
  | Some _ => - inject_Z action_flag * 3
  end.

(** A solver run that ends where it starts. *)
Definition stalled_minimize (p : problem) : result OptimizeResult :=
  Ok (mkResult (start p)
               (match objective p (start p) with
                | Ok v => v
                | Raise _ => 0
                end)).

(** The minimum of the long-straddle problem under [sample_price_fixed]:
    as many units as the budget pays for, at strike 100 and 31 days. *)
Definition straddle_minimize (p : problem) : result OptimizeResult :=
  let q := - nl_lb p * (1 # 2) in
  Ok (mkResult [q; 100; 31; 100; 31] (- (4 * q))).

Definition bull_100 : OptionsStrategy := mkStrategy BullCallSpread 100 30%Z test_catalog.
Definition bull_200 : OptionsStrategy := mkStrategy BullCallSpread 200 30%Z test_catalog.
Definition straddle_100 : OptionsStrategy := mkStrategy LongStraddle 100 30%Z test_catalog.

(** Catalogs for the grid search: calls at one strike and two expirations,
    calls at a single strike above the predicted price, and no calls. *)
Definition two_expirations : catalog := [("CALL"%string, [(30%Z, [100]); (60%Z, [100])])].
Definition far_strike : catalog := [("CALL"%string, [(30%Z, [200])])].
Definition puts_only : catalog := [("PUT"%string, test_chain)].



Definition grid_two_expirations : GridSearchBS :=
  GridSearchBS_init (mkStrategy BullCallSpread 100 30%Z two_expirations) test_market.
Definition grid_far_strike : GridSearchBS :=
  GridSearchBS_init (mkStrategy BullCallSpread 100 30%Z far_strike) test_market.
Definition grid_puts_only : GridSearchBS :=
  GridSearchBS_init (mkStrategy BullCallSpread 100 30%Z puts_only) test_market.
Definition continuous_bull_100 : StrategyOptimizerBS :=
  StrategyOptimizerBS_init bull_100 test_market.
Definition continuous_bull_200 : StrategyOptimizerBS :=
  StrategyOptimizerBS_init bull_200 test_market.

Section Optimizers.

(** [black_scholes_euro_option_price(call_flag, S, K, T, r, sigma)], of
    the compiled module [optionstools.pricing]: a pure function whose
    result is a Python float, so that a division by a premium of zero
    raises [ZeroDivisionError]. *)
Variable price_option : Z -> Q -> Q -> Q -> Q -> Q -> Q.

(** [black_scholes_euro_option_price_fixed(action_flag, call_flag, S, r,
    sigma[, days_forward])], which returns a function of [(K, T)]. *)
Variable price_option_fixed : Z -> Z -> Q -> Q -> Q -> option Z -> Q -> Q -> Q.

(** [scipy.optimize.minimize(..., method='SLSQP')].  The call may raise:
    it rejects, for one, bounds whose lower end exceeds the upper. *)
Variable minimize : problem -> result OptimizeResult.

(** *** StrategyOptimizerBS *)

(** The body shared by [cost_] and [revenue_]:
    [x[0]] times the [sum] of [f] applied to [x_i], for [f, x_i] in
    [zip(function_list, KT_array)]. *)
Definition scaled_sum (h : heap) (o : StrategyOptimizerBS)
    (function_list : list (Q -> Q -> Q)) (x : list Q) : result Q :=
  KT_array <- reshape (leg_count h (so_strategy o)) (tl x) ;;
  Ok (hd 0 x * py_sum (map (fun fx : (Q -> Q -> Q) * (Q * Q) =>
                              fst fx (fst (snd fx)) (snd (snd fx)))
                           (combine function_list KT_array))).

Definition _get_cost_function := scaled_sum.

Definition _get_revenue_function := scaled_sum.

Definition _get_profit_function (h : heap) (o : StrategyOptimizerBS)
    (revenue_function_list cost_function_list : list (Q -> Q -> Q)) (x : list Q) : result Q :=
  R <- _get_revenue_function h o revenue_function_list x ;;
  C <- _get_cost_function h o cost_function_list x ;;
  Ok (- (R + C)).

Definition cost_function_list (h : heap) (o : StrategyOptimizerBS) : list (Q -> Q -> Q) :=
  let m := so_market o in
  map (fun option =>
         price_option_fixed (fst (convert_action_string_to_flags (action option)))
           (call_flag_of option) (current_price m) (r m) (sigma m) None)
      (options h (so_strategy o)).

Definition revenue_function_list (h : heap) (o : StrategyOptimizerBS) : list (Q -> Q -> Q) :=
  let m := so_market o in
  map (fun option =>
         price_option_fixed (snd (convert_action_string_to_flags (action option)))
           (call_flag_of option) (future_price m) (r m) (sigma m) (Some (days_forward m)))
      (options h (so_strategy o)).

(** The optimization problem [optimize] passes to the solver. *)
Definition problem_of (h : heap) (o : StrategyOptimizerBS) (b : list (Q * Q)) : problem :=
  let cost := _get_cost_function h o (cost_function_list h o) in
  let func_to_optimize :=
    _get_profit_function h o (revenue_function_list h o) (cost_function_list h o) in
  mkProblem func_to_optimize (x0 (so_strategy o)) b
            cost (- max_premium (so_market o)) 100000
            (definition (so_strategy o)) 10000.

Definition StrategyOptimizerBS_optimize (h : heap) (o : StrategyOptimizerBS)
  : result unit * StrategyOptimizerBS :=
  match bounds (so_strategy o) with
  | Raise e => (Raise e, o)
  | Ok b =>
      match minimize (problem_of h o b) with
      | Raise e => (Raise e, o)
      | Ok res =>
          (Ok tt, mkStrategyOptimizerBS (so_market o) (so_strategy o) true (Some res))
      end
  end.

Definition StrategyOptimizerBS_max_profit (o : StrategyOptimizerBS) : result Q :=
  if negb (so_is_optimized o) then unoptimized
  else match _optimization_result o with
       | None => Raise (AttributeError "_optimization_result")
       | Some res => Ok (- opt_fun res)
       end.

(** [best_strategy] returns a shallow copy of the class' [options] list,
    that is the shared dicts themselves, after writing the solution into
    them. *)
Definition StrategyOptimizerBS_best_strategy (h : heap) (o : StrategyOptimizerBS)
  : result (list ref) * heap :=
  if negb (so_is_optimized o) then (unoptimized, h)
  else match _optimization_result o with
       | None => (Raise (AttributeError "_optimization_result"), h)
       | Some res =>
           let c := cls (so_strategy o) in
           let x := opt_x res in
           (Ok (map (fun i => (c, i)) (seq 0 (List.length (h c)))),
            upd h c (annotate (hd 0 x) (h c) (stride2 (tl x)) (stride2 (tl (tl x)))))
       end.

(** One pass of the loop of [get_profit]. *)
Definition profit_step (o : StrategyOptimizerBS) (equity_price : Q) (profit : Q) (option : leg)
  : result Q :=
  let m := so_market o in
  let flags := convert_action_string_to_flags (action option) in
  let call_flag := call_flag_of option in
  K <- get_key "strike" (strike option) ;;
  T <- get_key "days_to_expiration" (days_to_expiration option) ;;
  let premium_open := price_option call_flag (current_price m) K T (r m) (sigma m) in
  let premium_close :=
    price_option call_flag equity_price K (T - inject_Z (days_forward m)) (r m) (sigma m) in
  q <- get_key "quantity" (quantity option) ;;
  let profit := profit - q * inject_Z (fst flags) * premium_open in
  Ok (profit - q * inject_Z (snd flags) * premium_close).

(** Truth value of the [leg] argument: [None] and [0] are false. *)
Definition truthy (leg : option Z) : bool :=
  match leg with
  | None => false
  | Some n => negb (n =? 0)%Z
  end.

Definition get_profit (h : heap) (o : StrategyOptimizerBS) (equity_price : Q) (leg : option Z)
  : result Q * heap :=
  if negb (so_is_optimized o) then (unoptimized, h)
  else match StrategyOptimizerBS_best_strategy h o with
       | (Raise e, h') => (Raise e, h')
       | (Ok bs, h') =>
           let opts :=
             match leg with
             | Some n => if truthy leg then py_slice bs (n - 1) n else bs
             | None => bs
             end in
           (foldM (profit_step o equity_price) (map (read h') opts) 0, h')
       end.

(** *** GridSearchBS *)

Definition entry_price (m : market) (leg : entry) : Q :=
  price_option (e_call_flag leg) (current_price m) (e_strike leg)
               (inject_Z (e_days leg)) (r m) (sigma m).

(** The two accumulations of the inner loop over the legs of a candidate. *)
Definition combo_profit (m : market) (s : list entry) : Q :=
  fold_left (fun profit leg =>
               profit + (py_max 0 (future_price m - e_strike leg)
                         - entry_price m leg * (1 + r m) * inject_Z (e_buy_flag leg)))
            s 0.

Definition combo_premium (m : market) (s : list entry) : Q :=
  fold_left (fun premium leg => premium - entry_price m leg * inject_Z (e_buy_flag leg)) s 0.



(** [max_profit], [cost] and [opt_strategy] of the scan. *)
Record scan_state : Type := mkScan {
  sc_max_profit : Q;
  sc_cost : Q;
  sc_opt_strategy : list entry
}.

Definition scan_step (m : market) (st : scan_state) (s : list entry) : scan_state :=
  if Qltb (sc_max_profit st) (combo_profit m s)
  then mkScan (combo_profit m s) (combo_premium m s) s
  else st.

Definition scan (m : market) (ss : list (list entry)) : scan_state :=
  fold_left (scan_step m) ss (mkScan 0 0 []).

(** [optimize] sets [is_optimized], [_max_profit] and [_opt_strategy]
    before it divides the budget by the cost. *)
Definition GridSearchBS_optimize (h : heap) (g : GridSearchBS) : result unit * GridSearchBS :=
  let m := gs_market g in
  let s := gs_strategy g in
  let st := scan m (strats (available_options s) (options h s)) in
  match py_div (max_premium m) (sc_cost st) with
  | Raise e =>
      (Raise e,
       mkGridSearchBS m s true (Some (sc_max_profit st)) (Some (sc_opt_strategy st))
                      (_quantity g))
  | Ok q =>
      (Ok tt,
       mkGridSearchBS m s true (Some (sc_max_profit st)) (Some (sc_opt_strategy st))
                      (Some (Qabs q)))
  end.

(** The property reads [self._max_profit] before it tests the flag. *)
Definition GridSearchBS_max_profit (g : GridSearchBS) : result Q :=
  match _max_profit g with
  | None => Raise (AttributeError "_max_profit")
  | Some max_profit => if negb (gs_is_optimized g) then unoptimized else Ok max_profit
  end.

Definition entry_dict (quantity : Q) (s : entry) : leg :=
  mkLeg (if (e_call_flag s =? 1)%Z then "call" else "put")
        (if (e_buy_flag s =? 1)%Z then "buy" else "sell")
        (Some (e_strike s)) (Some (inject_Z (e_days s))) (Some quantity).

(** Likewise [self._opt_strategy] and [self._quantity]; the result is a
    list of fresh dicts. *)
Definition GridSearchBS_best_strategy (g : GridSearchBS) : result (list leg) :=
  match _opt_strategy g with
  | None => Raise (AttributeError "_opt_strategy")
  | Some opt_strategy =>
      match _quantity g with
      | None => Raise (AttributeError "_quantity")
      | Some quantity =>
          if negb (gs_is_optimized g) then unoptimized
          else Ok (map (entry_dict quantity) opt_strategy)
      end
  end.

(** *** ParallelStrategyOptimizerBS *)

(** The coroutines never await, so the tasks run one after the other;
    the optimizers are updated in place, whether or not a task raises. *)
Fixpoint optimize_all (h : heap) (os : list StrategyOptimizerBS)
  : result unit * list StrategyOptimizerBS :=
  match os with
  | [] => (Ok tt, [])
  | o :: os' =>
      let ro := StrategyOptimizerBS_optimize h o in
      let rs := optimize_all h os' in
      (match fst ro with Raise e => Raise e | Ok _ => fst rs end, snd ro :: snd rs)
  end.

Definition ParallelStrategyOptimizerBS_optimize (h : heap) (p : ParallelStrategyOptimizerBS)
  : result unit * ParallelStrategyOptimizerBS :=
  let rs := optimize_all h (_strategy_optimizers p) in
  match fst rs with
  | Raise e =>
      (Raise e, mkParallelStrategyOptimizerBS (ps_market p) (strategies p) false (snd rs))
  | Ok _ =>
      (Ok tt, mkParallelStrategyOptimizerBS (ps_market p) (strategies p) true (snd rs))
  end.

Definition ParallelStrategyOptimizerBS_max_profit (p : ParallelStrategyOptimizerBS) : result Q :=
  if negb (ps_is_optimized p) then unoptimized
  else profits <- mapM StrategyOptimizerBS_max_profit (_strategy_optimizers p) ;;
       py_max_seq profits.

(** [max(optimizers, key=...)]: the first optimizer with the greatest key. *)
Fixpoint max_by_key (best : StrategyOptimizerBS) (key : Q) (os : list (StrategyOptimizerBS * Q))
  : StrategyOptimizerBS :=
  match os with
  | [] => best
  | (o, k) :: os' => if Qltb key k then max_by_key o k os' else max_by_key best key os'
  end.

Definition ParallelStrategyOptimizerBS_best_strategy (h : heap) (p : ParallelStrategyOptimizerBS)
  : result (list ref) * heap :=
  if negb (ps_is_optimized p) then (unoptimized, h)
  else match mapM (fun o => k <- StrategyOptimizerBS_max_profit o ;; Ok (o, k))
                  (_strategy_optimizers p) with
       | Raise e => (Raise e, h)
       | Ok [] => (Raise (ValueError "max() arg is an empty sequence"), h)
       | Ok ((o, k) :: oks) => StrategyOptimizerBS_best_strategy h (max_by_key o k oks)
       end.

Definition name (s : OptionsStrategy) : string :=
  match cls s with
  | BullCallSpread => "BullCallSpread"
  | BearPutSpread => "BearPutSpread"
  | ProtectiveCollar => "ProtectiveCollar"
  | LongStrangle => "LongStrangle"
  | LongStraddle => "LongStraddle"
  end.

(** [d[k] = v] on a dict kept in insertion order. *)
Fixpoint dict_set {V : Type} (k : string) (v : V) (d : list (string * V)) : list (string * V) :=
  match d with
  | [] => [(k, v)]
  | (k', v') :: d' => if String.eqb k k' then (k, v) :: d' else (k', v') :: dict_set k v d'
  end.

Fixpoint collect_strategies (h : heap) (os : list StrategyOptimizerBS)
    (acc : list (string * (Q * list ref)))
  : result (list (string * (Q * list ref))) * heap :=
  match os with
  | [] => (Ok acc, h)
  | o :: os' =>
      match StrategyOptimizerBS_max_profit o with
      | Raise e => (Raise e, h)
      | Ok mp =>
          match StrategyOptimizerBS_best_strategy h o with
          | (Raise e, h') => (Raise e, h')
          | (Ok bs, h') => collect_strategies h' os' (dict_set (name (so_strategy o)) (mp, bs) acc)
          end
      end
  end.

Definition get_optimized_strategies (h : heap) (p : ParallelStrategyOptimizerBS)
  : result (list (string * (Q * list ref))) * heap :=
  if negb (ps_is_optimized p) then (unoptimized, h)
  else collect_strategies h (_strategy_optimizers p) [].


(** ** The strategy registry (strategy.py, cli.py) *)

(** [list_strategies]: the classes of the module whose first base is not
    [abc.ABC], that is the five strategies without [OptionsStrategy], as
    [inspect.getmembers] lists them: sorted by name. *)
Definition list_strategies : list (string * strategy_class) :=
  [("BearPutSpread"%string, BearPutSpread);
   ("BullCallSpread"%string, BullCallSpread);
   ("LongStraddle"%string, LongStraddle);
   ("LongStrangle"%string, LongStrangle);
   ("ProtectiveCollar"%string, ProtectiveCollar)].

Definition list_strategy_names : list string := map fst list_strategies.

(** [cli.get_strategy_from_string]: the first pair with that very name, or
    an [Exception] with the message given on the right. *)
Fixpoint find_strategy (name : string) (pairs : list (string * strategy_class))
  : option strategy_class :=
  match pairs with
  | [] => None
  | strategy_pair :: pairs' =>
      if String.eqb (fst strategy_pair) name then Some (snd strategy_pair)
      else find_strategy name pairs'
  end.

Definition get_strategy_from_string (name : string) : strategy_class + string :=
  match find_strategy name list_strategies with
  | Some c => inl c
  | None => inr ("No strategy '" ++ name ++ "' is defined.")%string
  end.

(** ** Catalogs built by the program (api.py, cli.py) *)

(** [range(0, stop, 5)] *)
Definition range_by_5 (stop : Z) : list Z :=
  map (fun i => (5 * Z.of_nat i)%Z) (seq 0 (Z.to_nat ((stop + 4) / 5))).

(** [range(1, days + 1)] *)
Definition range_from_1 (days : Z) : list Z :=
  map Z.of_nat (seq 1 (Z.to_nat days)).

(** [api.continuous_prices(price, days, multiplier)]: every day from 1 to
    [days] lists the strikes 0, 5, 10, ... up to [price * multiplier]; the
    same grid serves calls and puts. *)
Definition continuous_prices (price days multiplier : Z) : catalog :=
  let options_grid :=
    map (fun day => (day, map inject_Z (range_by_5 (price * multiplier + 1))))
        (range_from_1 days) in
  [("CALL"%string, options_grid); ("PUT"%string, options_grid)].

(** The catalog [cli_strategy_optimizer_bs] falls back on when no stock
    symbol is given. *)
Definition cli_default_options (current_price : Q) : catalog :=
  [("CALL"%string, [(7%Z, [current_price * (1 # 10)]); (365%Z, [current_price * (21 # 10)])]);
   ("PUT"%string, [(7%Z, [current_price * (1 # 10)]); (365%Z, [current_price * (21 # 10)])])].

(** The strategy and the optimizer [cli_strategy_optimizer_bs] builds for
    one strategy class from the user's arguments, in that case. *)
Definition cli_optimizer (c : strategy_class) (current_price future_price : Q)
    (days_forward : Z) (volatility interest_rate investment : Q) : StrategyOptimizerBS :=
  StrategyOptimizerBS_init
    (mkStrategy c current_price (days_forward + 1) (cli_default_options current_price))
    (mkMarket current_price future_price days_forward volatility interest_rate investment).

(** [cli.transpose]: the rows zipped together, each tuple made a list;
    as many of them as the shortest row has entries. *)
Fixpoint heads {T : Type} (rows : list (list T)) : option (list T) :=
  match rows with
  | [] => Some []
  | [] :: _ => None
  | (a :: _) :: rows' =>
      match heads rows' with
      | Some hs => Some (a :: hs)
      | None => None
      end
  end.

Fixpoint transpose_upto {T : Type} (fuel : nat) (rows : list (list T)) : list (list T) :=
  match fuel with
  | O => []
  | S fuel' =>
      match heads rows with
      | Some hs => hs :: transpose_upto fuel' (map (@tl T) rows)
      | None => []
      end
  end.

Definition transpose {T : Type} (list_of_lists : list (list T)) : list (list T) :=
  match list_of_lists with
  | [] => []
  | row :: _ => transpose_upto (List.length row) list_of_lists
  end.

(** ** Further notions for the properties below *)

Definition bucket_eqb (a b : bucket) : bool :=
  match a, b with
  | call_buy, call_buy | call_sell, call_sell | put_buy, put_buy | put_sell, put_sell => true
  | _, _ => false
  end.

(** The entries of all the legs that append to bucket [b]. *)
Definition bucket_content (cat : catalog) (opts : list leg) (b : bucket) : list entry :=
  flat_map (fun option =>
              if bucket_eqb (append_target option) b then leg_entries cat option else [])
           opts.

(** ** Shapes of [x0] and [bounds] *)

Lemma mapM_nonempty_ok (f : list Q -> result Q) (by_days : chain) :
  (forall ks, ks <> [] -> exists v, f ks = Ok v) ->
  forallb (fun e : Z * list Q => negb (is_empty (snd e))) by_days = true ->
  exists vs, mapM (fun e => f (snd e)) by_days = Ok vs /\ List.length vs = List.length by_days.
Proof.
  intros Hf. induction by_days as [|[d ks] tl IH]; simpl; intros Hall.
  - exists []. split; reflexivity.
  - apply andb_true_iff in Hall as [Hks Htl].
    destruct (Hf ks) as [v Hv].
    { destruct ks; [discriminate | congruence]. }
    destruct (IH Htl) as [vs [Hvs Hlen]].
    rewrite Hv. simpl. rewrite Hvs. simpl.
    exists (v :: vs). split; [reflexivity | simpl; congruence].
Qed.

Lemma py_min_seq_ok (ks : list Q) : ks <> [] -> exists v, py_min_seq ks = Ok v.
Proof. destruct ks; [congruence | intros _; eexists; reflexivity]. Qed.

Lemma py_max_seq_ok (ks : list Q) : ks <> [] -> exists v, py_max_seq ks = Ok v.
Proof. destruct ks; [congruence | intros _; eexists; reflexivity]. Qed.

Lemma stats_of_ok (key : string) (cat : catalog) :
  populated key cat = true -> exists st, stats_of key cat = Ok st.
Proof.
  unfold populated, stats_of. destruct (dict_get key cat) as [by_days|]; [|discriminate].
  intros H. apply andb_true_iff in H as [Hne Hall]. simpl.
  destruct by_days as [|e tl]; [discriminate|].
  destruct (mapM_nonempty_ok py_min_seq (e :: tl) py_min_seq_ok Hall) as [mins [Hmins Lmins]].
  destruct (mapM_nonempty_ok py_max_seq (e :: tl) py_max_seq_ok Hall) as [maxs [Hmaxs Lmaxs]].
  cbn [map py_min_seqZ py_max_seqZ bind].
  rewrite Hmins. cbn [bind].
  destruct mins as [|mn mins']; [discriminate|]. cbn [py_min_seq bind].
  rewrite Hmaxs. cbn [bind].
  destruct maxs as [|mx maxs']; [discriminate|]. cbn [py_max_seq bind].
  eexists; reflexivity.
Qed.

Lemma x0_length (s : OptionsStrategy) : List.length (x0 s) = 5%nat.
Proof. unfold x0. destruct (cls s); reflexivity. Qed.

Lemma declared_leg_count (h : heap) (s : OptionsStrategy) :
  declared h -> leg_count h s = 2%nat.
Proof.
  intros Hd. unfold leg_count, options.
  rewrite <- (length_map type_action), (Hd (cls s)), length_map.
  destruct (cls s); reflexivity.
Qed.

Lemma x0_bounds_lengths_aux (s : OptionsStrategy) :
  forallb (fun key => populated key (available_options s)) (consulted (cls s)) = true ->
  exists b, bounds s = Ok b.
Proof.
  intros Hpop. unfold bounds. destruct (cls s); simpl in Hpop;
    repeat (apply andb_true_iff in Hpop as [?Hk Hpop]);
    repeat match goal with
           | Hk : populated ?k _ = true |- _ =>
               let st := fresh "st" in let E := fresh "E" in
               destruct (stats_of_ok _ _ Hk) as [st E]; rewrite E; clear Hk
           end;
    cbn [bind]; eexists; reflexivity.
Qed.

(** C9, as amended.  For each of the five strategies, whatever the current
    price and the minimum-days floor, [x0] has [1 + 2*leg_count] entries;
    and when the catalog is populated under every key the strategy's
    [bounds] reads, [bounds] returns a list of that same length. *)
Theorem x0_bounds_lengths (h : heap) (s : OptionsStrategy) :
  declared h ->
  forallb (fun key => populated key (available_options s)) (consulted (cls s)) = true ->
  List.length (x0 s) = (1 + 2 * leg_count h s)%nat /\
  exists b, bounds s = Ok b /\ List.length b = (1 + 2 * leg_count h s)%nat.
Proof.
  intros Hd Hpop. rewrite (declared_leg_count h s Hd). split; [apply x0_length|].
  unfold bounds. destruct (cls s); simpl in Hpop;
    repeat (apply andb_true_iff in Hpop as [?Hk Hpop]);
    repeat match goal with
           | Hk : populated ?k _ = true |- _ =>
               let st := fresh "st" in let E := fresh "E" in
               destruct (stats_of_ok _ _ Hk) as [st E]; rewrite E; clear Hk
           end;
    cbn [bind]; eexists; split; reflexivity.
Qed.

(** ** Reads before [optimize] *)

Lemma StrategyOptimizerBS_unoptimized_reads (h : heap) (o : StrategyOptimizerBS) (p : Q)
    (leg : option Z) :
  so_is_optimized o = false ->
  StrategyOptimizerBS_max_profit o = unoptimized /\
  StrategyOptimizerBS_best_strategy h o = (unoptimized, h) /\
  get_profit h o p leg = (unoptimized, h).
Proof.
  intros H. unfold StrategyOptimizerBS_max_profit, StrategyOptimizerBS_best_strategy, get_profit.
  rewrite H. repeat split.
Qed.

Lemma ParallelStrategyOptimizerBS_unoptimized_reads (h : heap)
    (p : ParallelStrategyOptimizerBS) :
  ps_is_optimized p = false ->
  ParallelStrategyOptimizerBS_max_profit p = unoptimized /\
  ParallelStrategyOptimizerBS_best_strategy h p = (unoptimized, h) /\
  get_optimized_strategies h p = (unoptimized, h).
Proof.
  intros H.
  unfold ParallelStrategyOptimizerBS_max_profit, ParallelStrategyOptimizerBS_best_strategy,
    get_optimized_strategies.
  rewrite H. repeat split.
Qed.

(** A continuous optimizer whose [optimize] raised is still unoptimized. *)
Lemma StrategyOptimizerBS_optimize_raise (h : heap) (o o' : StrategyOptimizerBS) (e : exn) :
  StrategyOptimizerBS_optimize h o = (Raise e, o') -> o' = o.
Proof.
  unfold StrategyOptimizerBS_optimize. destruct (bounds (so_strategy o)) as [b|]; [|congruence].
  destruct (minimize (problem_of h o b)); congruence.
Qed.

(** C1, at the failing input.  On a freshly constructed [GridSearchBS] the
    reads of [max_profit] and [best_strategy] raise [AttributeError], not
    the "optimizer not yet run" error that the two other classes raise in
    the same situation. *)
Theorem GridSearchBS_unoptimized_reads (s : OptionsStrategy) (ss : list OptionsStrategy)
    (m : market) (h : heap) :
  GridSearchBS_max_profit (GridSearchBS_init s m) = Raise (AttributeError "_max_profit") /\
  GridSearchBS_best_strategy (GridSearchBS_init s m) = Raise (AttributeError "_opt_strategy") /\
  StrategyOptimizerBS_max_profit (StrategyOptimizerBS_init s m) = unoptimized /\
  StrategyOptimizerBS_best_strategy h (StrategyOptimizerBS_init s m) = (unoptimized, h) /\
  ParallelStrategyOptimizerBS_max_profit (ParallelStrategyOptimizerBS_init ss m) = unoptimized /\
  ParallelStrategyOptimizerBS_best_strategy h (ParallelStrategyOptimizerBS_init ss m)
    = (unoptimized, h) /\
  get_optimized_strategies h (ParallelStrategyOptimizerBS_init ss m) = (unoptimized, h).
Proof. repeat split. Qed.

(** ** [get_profit] on an optimized instance *)

Lemma strategy_class_eqb_refl (c : strategy_class) : strategy_class_eqb c c = true.
Proof. destruct c; reflexivity. Qed.

Lemma upd_same (h : heap) (c : strategy_class) (legs : list leg) : upd h c legs c = legs.
Proof. unfold upd. now rewrite strategy_class_eqb_refl. Qed.

Lemma annotate_length (q : Q) (legs : list leg) (ks ts : list Q) :
  List.length (annotate q legs ks ts) = List.length legs.
Proof.
  revert ks ts. induction legs as [|l legs IH]; intros [|k ks] [|t ts]; simpl; auto.
Qed.

Lemma annotate_idempotent (q : Q) (legs : list leg) (ks ts : list Q) :
  annotate q (annotate q legs ks ts) ks ts = annotate q legs ks ts.
Proof.
  revert ks ts. induction legs as [|l legs IH]; intros [|k ks] [|t ts]; simpl; auto.
  now rewrite IH.
Qed.

Lemma annotate_type_action (q : Q) (legs : list leg) (ks ts : list Q) :
  map type_action (annotate q legs ks ts) = map type_action legs.
Proof.
  revert ks ts. induction legs as [|l legs IH]; intros [|k ks] [|t ts]; simpl; auto.
  now rewrite IH.
Qed.

(** Reading [best_strategy] leaves the declared legs in place. *)
Lemma best_strategy_keeps_declared (h : heap) (o : StrategyOptimizerBS) :
  declared h -> declared (snd (StrategyOptimizerBS_best_strategy h o)).
Proof.
  intros Hd. unfold StrategyOptimizerBS_best_strategy.
  destruct (so_is_optimized o); cbn [negb]; [|exact Hd].
  destruct (_optimization_result o) as [res|]; [|exact Hd].
  cbn [snd]. intros c. unfold upd.
  destruct (strategy_class_eqb (cls (so_strategy o)) c) eqn:E; [|apply Hd].
  rewrite annotate_type_action.
  assert (cls (so_strategy o) = c) as ->
    by (destruct (cls (so_strategy o)), c; (reflexivity || discriminate E)).
  apply Hd.
Qed.

(** What an instance looks like once [optimize] has returned. *)
Lemma StrategyOptimizerBS_optimize_ok (h : heap) (o o' : StrategyOptimizerBS) :
  StrategyOptimizerBS_optimize h o = (Ok tt, o') ->
  exists b res,
    bounds (so_strategy o) = Ok b /\
    minimize (problem_of h o b) = Ok res /\
    o' = mkStrategyOptimizerBS (so_market o) (so_strategy o) true (Some res).
Proof.
  unfold StrategyOptimizerBS_optimize. destruct (bounds (so_strategy o)) as [b|e]; [|discriminate].
  destruct (minimize (problem_of h o b)) as [res|e] eqn:E; [|discriminate].
  intros H. exists b, res. split; [reflexivity|]. split; [exact E|]. congruence.
Qed.

Lemma py_slice_map {T U : Type} (f : T -> U) (l : list T) (a b : Z) :
  py_slice (map f l) a b = map f (py_slice l a b).
Proof.
  unfold py_slice. rewrite length_map, <- firstn_map, <- skipn_map. reflexivity.
Qed.

Lemma read_refs (h : heap) (c : strategy_class) (idx : list nat) :
  map (read h) (map (fun i => (c, i)) idx) = map (fun i => nth i (h c) (leg_of "" "")) idx.
Proof. rewrite map_map. reflexivity. Qed.

Lemma get_profit_optimized (h : heap) (o : StrategyOptimizerBS) (res : OptimizeResult)
    (p : Q) (leg : option Z) :
  so_is_optimized o = true ->
  _optimization_result o = Some res ->
  get_profit h o p leg =
    (let legs := solved_legs h o (opt_x res) in
     let idx := seq 0 (List.length legs) in
     let sel := match leg with
                | Some n => if truthy leg then py_slice idx (n - 1) n else idx
                | None => idx
                end in
     foldM (profit_step o p) (map (fun i => nth i legs (leg_of "" "")) sel) 0,
     upd h (cls (so_strategy o)) (solved_legs h o (opt_x res))).
Proof.
  intros Hopt Hres. unfold get_profit, StrategyOptimizerBS_best_strategy.
  rewrite Hopt, Hres. cbn [negb]. cbv zeta. fold (solved_legs h o (opt_x res)).
  assert (L : List.length (solved_legs h o (opt_x res)) = List.length (h (cls (so_strategy o))))
    by apply annotate_length.
  rewrite L. f_equal. f_equal.
  destruct leg as [n|]; [destruct (truthy (Some n))|];
    rewrite ?py_slice_map, read_refs, upd_same; reflexivity.
Qed.

(** C8.  On an instance whose [optimize] has returned, a second
    [get_profit] with the same arguments, run right after the first,
    returns the same result as the first. *)
Theorem get_profit_repeatable (h0 h : heap) (o0 o : StrategyOptimizerBS) (p : Q)
    (leg : option Z) :
  StrategyOptimizerBS_optimize h0 o0 = (Ok tt, o) ->
  fst (get_profit (snd (get_profit h o p leg)) o p leg) = fst (get_profit h o p leg).
Proof.
  intros Hrun. destruct (StrategyOptimizerBS_optimize_ok _ _ _ Hrun) as (b & res & _ & _ & ->).
  set (o := mkStrategyOptimizerBS _ _ _ _).
  rewrite (get_profit_optimized h o res p leg eq_refl eq_refl). cbn [fst snd]. cbv zeta.
  rewrite (get_profit_optimized _ o res p leg eq_refl eq_refl). cbn [fst]. cbv zeta.
  assert (E : solved_legs (upd h (cls (so_strategy o)) (solved_legs h o (opt_x res))) o (opt_x res)
              = solved_legs h o (opt_x res)).
  { unfold solved_legs at 1. rewrite upd_same. apply annotate_idempotent. }
  rewrite E. reflexivity.
Qed.

Lemma py_slice_beyond {T : Type} (l : list T) (n : Z) :
  (Z.of_nat (List.length l) < n)%Z -> py_slice l (n - 1) n = [].
Proof.
  intros H. unfold py_slice, clamp_index.
  destruct (n - 1 <? 0)%Z eqn:E1; [apply Z.ltb_lt in E1; lia|].
  destruct (n <? 0)%Z eqn:E2; [apply Z.ltb_lt in E2; lia|].
  rewrite !Z.min_r by lia. rewrite Z.sub_diag. reflexivity.
Qed.

(** C10.  On an instance whose [optimize] has returned, [get_profit] with
    an integer [leg] greater than the number of legs returns 0 and raises
    nothing, and [get_profit] with [leg = 0] is [get_profit] with
    [leg = None]. *)
Theorem get_profit_leg_out_of_range (h0 h : heap) (o0 o : StrategyOptimizerBS) (p : Q) :
  StrategyOptimizerBS_optimize h0 o0 = (Ok tt, o) ->
  (forall n : Z, (Z.of_nat (leg_count h (so_strategy o)) < n)%Z ->
                 fst (get_profit h o p (Some n)) = Ok 0) /\
  get_profit h o p (Some 0%Z) = get_profit h o p None.
Proof.
  intros Hrun. destruct (StrategyOptimizerBS_optimize_ok _ _ _ Hrun) as (b & res & _ & _ & ->).
  set (o := mkStrategyOptimizerBS _ _ _ _).
  split.
  - intros n Hn.
    rewrite (get_profit_optimized h o res p (Some n) eq_refl eq_refl). cbn [fst]. cbv zeta.
    assert (Ht : truthy (Some n) = true).
    { unfold truthy. destruct (Z.eqb_spec n 0); [lia | reflexivity]. }
    rewrite Ht, py_slice_beyond; [reflexivity|].
    rewrite length_seq. unfold solved_legs. rewrite annotate_length. exact Hn.
  - rewrite !(get_profit_optimized h o res p _ eq_refl eq_refl). reflexivity.
Qed.

(** ** Grid search *)

Lemma Qltb_true (a b : Q) : Qltb a b = true <-> a < b.
Proof.
  unfold Qltb. rewrite negb_true_iff. split; intros H.
  - apply Qnot_le_lt. intros Hle. apply Qle_bool_iff in Hle. congruence.
  - destruct (Qle_bool b a) eqn:E; [|reflexivity].
    apply Qle_bool_iff in E. lra.
Qed.

Lemma Qltb_false (a b : Q) : Qltb a b = false <-> b <= a.
Proof.
  unfold Qltb. rewrite negb_false_iff. apply Qle_bool_iff.
Qed.

(** The scan keeps its state when no candidate beats it, and otherwise
    ends on the first candidate of greatest profit. *)
Lemma scan_from (m : market) (ss : list (list entry)) (st : scan_state) :
  (fold_left (scan_step m) ss st = st /\
   forall s, In s ss -> combo_profit m s <= sc_max_profit st) \/
  (exists pre w post,
      ss = pre ++ w :: post /\
      fold_left (scan_step m) ss st = mkScan (combo_profit m w) (combo_premium m w) w /\
      sc_max_profit st < combo_profit m w /\
      (forall s, In s pre -> combo_profit m s < combo_profit m w) /\
      (forall s, In s post -> combo_profit m s <= combo_profit m w)).
Proof.
  revert st. induction ss as [|a ss IH]; intros st.
  - left. split; [reflexivity | intros s []].
  - cbn [fold_left]. unfold scan_step at 2 4.
    destruct (Qltb (sc_max_profit st) (combo_profit m a)) eqn:E.
    + apply Qltb_true in E. right.
      destruct (IH (mkScan (combo_profit m a) (combo_premium m a) a))
        as [[Hst Hle] | (pre & w & post & -> & Hst & Hlt & Hpre & Hpost)].
      * exists [], a, ss. cbn [sc_max_profit] in Hle. repeat split; auto.
        intros s [].
      * exists (a :: pre), w, post. cbn [sc_max_profit] in Hlt. repeat split; auto.
        -- lra.
        -- intros s [<- | Hin]; auto.
    + apply Qltb_false in E.
      destruct (IH st) as [[Hst Hle] | (pre & w & post & -> & Hst & Hlt & Hpre & Hpost)].
      * left. split; [exact Hst|]. intros s [<- | Hin]; auto.
      * right. exists (a :: pre), w, post. repeat split; auto.
        intros s [<- | Hin]; [lra | auto].
Qed.

(** The stored cost is the premium of the stored combination. *)
Lemma scan_cost (m : market) (ss : list (list entry)) :
  sc_cost (scan m ss) = combo_premium m (sc_opt_strategy (scan m ss)).
Proof.
  unfold scan. destruct (scan_from m ss (mkScan 0 0 []))
    as [[-> _] | (pre & w & post & _ & -> & _)]; reflexivity.
Qed.

Lemma product_nil {T : Type} (ls : list (list T)) : In [] ls -> product ls = [].
Proof.
  induction ls as [|l ls IH]; intros Hin; [destruct Hin|].
  destruct Hin as [-> | Hin]; [reflexivity|].
  cbn [product]. rewrite (IH Hin). induction l as [|a l IHl]; [reflexivity | exact IHl].
Qed.

Lemma product_In {T : Type} (ls : list (list T)) (w : list T) :
  In w (product ls) -> Forall2 (fun a l => In a l) w ls.
Proof.
  revert w. induction ls as [|l ls IH]; intros w Hin.
  - destruct Hin as [<- | []]. constructor.
  - cbn [product] in Hin. apply in_flat_map in Hin as (a & Ha & Hin).
    apply in_map_iff in Hin as (w' & <- & Hw'). constructor; auto.
Qed.

(** For the declared legs of the five classes the candidate lists are, leg
    by leg, the catalog entries of the leg. *)
Lemma strats_declared (h : heap) (s : OptionsStrategy) (cat : catalog) :
  declared h ->
  strats cat (options h s) = product (map (leg_entries cat) (options h s)).
Proof.
  intros Hd. unfold options. specialize (Hd (cls s)).
  destruct (h (cls s)) as [|[t1 a1 k1 d1 q1] [|[t2 a2 k2 d2 q2] [|l3 tl]]];
    destruct (cls s); try discriminate Hd;
    cbn in Hd; injection Hd as -> -> -> ->;
    unfold strats, build, build_step; cbn; rewrite ?app_nil_r; reflexivity.
Qed.










(** C3, as amended.  When the catalog has no entry for some leg of the
    strategy, [optimize] does not return: it raises [ZeroDivisionError],
    having set the flag and stored a profit of 0 and an empty combination. *)
Theorem grid_search_no_candidates (h : heap) (g : GridSearchBS) (l : leg) :
  declared h ->
  In l (options h (gs_strategy g)) ->
  leg_entries (available_options (gs_strategy g)) l = [] ->
  GridSearchBS_optimize h g =
    (Raise ZeroDivisionError,
     mkGridSearchBS (gs_market g) (gs_strategy g) true (Some 0) (Some []) (_quantity g)).
Proof.
  intros Hd Hin Hnone. unfold GridSearchBS_optimize.
  rewrite (strats_declared h _ _ Hd), product_nil; [reflexivity|].
  rewrite <- Hnone. apply in_map. exact Hin.
Qed.


(** ** Legs returned by [best_strategy] *)

Lemma bounds_length (s : OptionsStrategy) (b : list (Q * Q)) :
  bounds s = Ok b -> List.length b = 5%nat.
Proof.
  unfold bounds. destruct (cls s);
    repeat match goal with
           | |- context [stats_of ?k ?c] => destruct (stats_of k c); cbn [bind]
           end;
    intros H; try discriminate H; injection H as <-; reflexivity.
Qed.

Lemma declared_two_legs (h : heap) (c : strategy_class) :
  declared h ->
  exists l1 l2, h c = [l1; l2] /\ map type_action (class_options c) = [type_action l1; type_action l2].
Proof.
  intros Hd. specialize (Hd c).
  destruct (h c) as [|l1 [|l2 [|l3 tl]]]; destruct c; try discriminate Hd;
    exists l1, l2; split; try reflexivity; symmetry; exact Hd.
Qed.


Lemma leg_entries_In (cat : catalog) (option : leg) (e : entry) :
  In e (leg_entries cat option) ->
  e_call_flag e = call_flag_of option /\
  e_buy_flag e = (if String.eqb (action option) "buy" then 1%Z else (-1)%Z) /\
  exists key by_days strikes,
    In (key, by_days) cat /\ lower key = type option /\
    In (e_days e, strikes) by_days /\ In (e_strike e) strikes.
Proof.
  unfold leg_entries. intros Hin.
  apply in_flat_map in Hin as ([key by_days] & Hkey & Hin). cbn [fst snd] in Hin.
  destruct (String.eqb_spec (type option) (lower key)) as [Ety|]; [|destruct Hin].
  apply in_flat_map in Hin as ([days strikes] & Hdays & Hin). cbn [fst snd] in Hin.
  apply in_map_iff in Hin as (k & <- & Hk). cbn.
  repeat split. exists key, by_days, strikes. auto.
Qed.



(** ** Two optimizers over one strategy class *)

Lemma map_nth_seq_id {T : Type} (l : list T) (d : T) :
  map (fun i => nth i l d) (seq 0 (List.length l)) = l.
Proof.
  apply (nth_ext _ _ d d).
  - now rewrite length_map, length_seq.
  - intros n Hn. rewrite length_map, length_seq in Hn.
    rewrite (nth_indep _ d (nth 0 l d)) by now rewrite length_map, length_seq.
    rewrite (map_nth (fun i => nth i l d) (seq 0 (List.length l)) 0%nat n).
    now rewrite seq_nth.
Qed.

(** The dicts a read of [best_strategy] returned hold, after a read on a
    second optimized instance of the same strategy class, the solution of
    that second instance. *)
Lemma best_strategy_shares_dicts (h : heap) (o1 o2 : StrategyOptimizerBS)
    (res1 res2 : OptimizeResult) :
  so_is_optimized o1 = true -> _optimization_result o1 = Some res1 ->
  so_is_optimized o2 = true -> _optimization_result o2 = Some res2 ->
  cls (so_strategy o1) = cls (so_strategy o2) ->
  let r1 := StrategyOptimizerBS_best_strategy h o1 in
  let r2 := StrategyOptimizerBS_best_strategy (snd r1) o2 in
  exists refs,
    fst r1 = Ok refs /\ fst r2 = Ok refs /\
    map (read (snd r1)) refs = solved_legs h o1 (opt_x res1) /\
    map (read (snd r2)) refs = solved_legs (snd r1) o2 (opt_x res2).
Proof.
  intros Ho1 Hr1 Ho2 Hr2 Hc r1 r2. subst r1 r2.
  unfold StrategyOptimizerBS_best_strategy. rewrite Ho1, Hr1, Ho2, Hr2. cbn [negb fst snd].
  rewrite <- Hc, upd_same, annotate_length.
  eexists. split; [reflexivity|]. split; [reflexivity|].
  rewrite !read_refs, !upd_same. split.
  - rewrite <- (annotate_length (hd 0 (opt_x res1)) (h (cls (so_strategy o1)))
                  (stride2 (tl (opt_x res1))) (stride2 (tl (tl (opt_x res1))))).
    apply map_nth_seq_id.
  - unfold solved_legs. rewrite <- Hc, upd_same.
    set (l1 := annotate _ (h _) _ _).
    rewrite <- (annotate_length (hd 0 (opt_x res1)) (h (cls (so_strategy o1)))
                  (stride2 (tl (opt_x res1))) (stride2 (tl (tl (opt_x res1))))).
    fold l1.
    rewrite <- (annotate_length (hd 0 (opt_x res2)) l1
                  (stride2 (tl (opt_x res2))) (stride2 (tl (tl (opt_x res2))))).
    apply map_nth_seq_id.
Qed.

(** ** The budget and the continuous optimizer *)


End Optimizers.

(** ** The optimizers on the sample inputs *)

Lemma initial_heap_declared : declared initial_heap.
Proof. intros c. reflexivity. Qed.

(** C9, witness: the bull call spread of the tests. *)
Lemma x0_bounds_lengths_witness :
  declared initial_heap /\
  forallb (fun key => populated key (available_options bull_100)) (consulted (cls bull_100)) = true /\
  List.length (x0 bull_100) = (1 + 2 * leg_count initial_heap bull_100)%nat /\
  exists b, bounds bull_100 = Ok b /\
            List.length b = (1 + 2 * leg_count initial_heap bull_100)%nat.
Proof.
  split; [exact initial_heap_declared|]. split; [reflexivity|].
  apply (x0_bounds_lengths initial_heap bull_100).
  - exact initial_heap_declared.
  - reflexivity.
Defined.

(** C9, counterexample: a bear put spread over a catalog that lists calls
    only.  The catalog is not empty, yet [bounds] raises [KeyError]. *)
Lemma bounds_without_puts :
  is_empty two_expirations = false /\
  List.length (x0 (mkStrategy BearPutSpread 100 30%Z two_expirations)) = 5%nat /\
  bounds (mkStrategy BearPutSpread 100 30%Z two_expirations) = Raise (KeyError "PUT").
Proof. repeat split. Qed.



Lemma grid_two_expirations_run :
  map (combo_profit sample_price test_market)
      (strats two_expirations (options initial_heap (gs_strategy grid_two_expirations)))
    = [1600000 # 160000; 2812000 # 160000; 388000 # 160000; 1600000 # 160000] /\
  _opt_strategy (snd (GridSearchBS_optimize sample_price initial_heap grid_two_expirations))
    = Some [mkEntry 1 1 100 30; mkEntry 1 (-1) 100 60] /\
  _quantity (snd (GridSearchBS_optimize sample_price initial_heap grid_two_expirations))
    = Some (1600 # 120).
Proof. repeat split. Qed.

(** C3, witness: a bull call spread over a catalog that lists puts only. *)
Lemma grid_search_no_candidates_witness :
  declared initial_heap /\
  In (leg_of "call" "buy") (options initial_heap (gs_strategy grid_puts_only)) /\
  leg_entries (available_options (gs_strategy grid_puts_only)) (leg_of "call" "buy") = [] /\
  GridSearchBS_optimize sample_price initial_heap grid_puts_only =
    (Raise ZeroDivisionError,
     mkGridSearchBS (gs_market grid_puts_only) (gs_strategy grid_puts_only) true
                    (Some 0) (Some []) (_quantity grid_puts_only)).
Proof.
  split; [exact initial_heap_declared|].
  split; [left; reflexivity|]. split; [reflexivity|].
  apply (grid_search_no_candidates sample_price initial_heap grid_puts_only (leg_of "call" "buy")).
  - exact initial_heap_declared.
  - left; reflexivity.
  - reflexivity.
Defined.

(** C3, counterexample.  The search without a single candidate (no calls
    in the catalog) ends exactly as the search whose one candidate has a
    profit of zero (buying and selling the same call): the same
    [ZeroDivisionError], the same stored profit, combination and quantity.
    Afterwards [max_profit] answers 0 for both. *)
Lemma no_candidates_like_zero_profit :
  strats puts_only (options initial_heap (gs_strategy grid_puts_only)) = [] /\
  map (combo_profit sample_price test_market)
      (strats far_strike (options initial_heap (gs_strategy grid_far_strike))) = [0 # 160000] /\
  fst (GridSearchBS_optimize sample_price initial_heap grid_puts_only) = Raise ZeroDivisionError /\
  fst (GridSearchBS_optimize sample_price initial_heap grid_far_strike) = Raise ZeroDivisionError /\
  (let none := snd (GridSearchBS_optimize sample_price initial_heap grid_puts_only) in
   let flat := snd (GridSearchBS_optimize sample_price initial_heap grid_far_strike) in
   (gs_is_optimized none, _max_profit none, _opt_strategy none, _quantity none)
     = (gs_is_optimized flat, _max_profit flat, _opt_strategy flat, _quantity flat) /\
   GridSearchBS_max_profit none = Ok 0 /\
   GridSearchBS_max_profit flat = Ok 0).
Proof. repeat split. Qed.



(** The quantity of that run: 40/3. *)
Lemma grid_search_quantity_samples :
  combo_premium sample_price test_market [mkEntry 1 1 100 30; mkEntry 1 (-1) 100 60] == 15 # 2 /\
  (exists q, _quantity (snd (GridSearchBS_optimize sample_price initial_heap grid_two_expirations))
             = Some q /\ q == 40 # 3).
Proof.
  split; [reflexivity|]. eexists; split; reflexivity.
Qed.


Lemma continuous_bull_100_run :
  StrategyOptimizerBS_optimize sample_price_fixed stalled_minimize initial_heap continuous_bull_100
  = (Ok tt,
     mkStrategyOptimizerBS test_market bull_100 true (Some (mkResult [1; 99; 31; 101; 31] 0))) /\
  bounds bull_100 = Ok [(1, 1000); (5, 100100 # 1000); (31, 365); (99900 # 1000, 200); (31, 365)].
Proof.
  split; vm_compute; reflexivity.
Qed.


(** C8, witness: the profit of the optimized bull call spread at 105. *)
Lemma get_profit_repeatable_witness :
  StrategyOptimizerBS_optimize sample_price_fixed stalled_minimize initial_heap continuous_bull_100
  = (Ok tt,
     mkStrategyOptimizerBS test_market bull_100 true (Some (mkResult [1; 99; 31; 101; 31] 0))) /\
  fst (get_profit sample_price
         (snd (get_profit sample_price initial_heap
                 (mkStrategyOptimizerBS test_market bull_100 true
                                        (Some (mkResult [1; 99; 31; 101; 31] 0)))
                 105 None))
         (mkStrategyOptimizerBS test_market bull_100 true (Some (mkResult [1; 99; 31; 101; 31] 0)))
         105 None)
  = fst (get_profit sample_price initial_heap
           (mkStrategyOptimizerBS test_market bull_100 true
                                  (Some (mkResult [1; 99; 31; 101; 31] 0)))
           105 None).
Proof.
  split; [vm_compute; reflexivity|].
  apply (get_profit_repeatable sample_price sample_price_fixed stalled_minimize
           initial_heap initial_heap continuous_bull_100
           (mkStrategyOptimizerBS test_market bull_100 true
                                  (Some (mkResult [1; 99; 31; 101; 31] 0)))
           105 None).
  vm_compute; reflexivity.
Defined.

(** C10, witness: the same instance, asked for legs 3 and 0. *)
Lemma get_profit_leg_out_of_range_witness :
  StrategyOptimizerBS_optimize sample_price_fixed stalled_minimize initial_heap continuous_bull_100
  = (Ok tt,
     mkStrategyOptimizerBS test_market bull_100 true (Some (mkResult [1; 99; 31; 101; 31] 0))) /\
  (forall n : Z,
      (Z.of_nat (leg_count initial_heap bull_100) < n)%Z ->
      fst (get_profit sample_price initial_heap
             (mkStrategyOptimizerBS test_market bull_100 true
                                    (Some (mkResult [1; 99; 31; 101; 31] 0)))
             105 (Some n)) = Ok 0) /\
  get_profit sample_price initial_heap
    (mkStrategyOptimizerBS test_market bull_100 true (Some (mkResult [1; 99; 31; 101; 31] 0)))
    105 (Some 0%Z)
  = get_profit sample_price initial_heap
      (mkStrategyOptimizerBS test_market bull_100 true (Some (mkResult [1; 99; 31; 101; 31] 0)))
      105 None.
Proof.
  split; [vm_compute; reflexivity|].
  apply (get_profit_leg_out_of_range sample_price sample_price_fixed stalled_minimize
           initial_heap initial_heap continuous_bull_100
           (mkStrategyOptimizerBS test_market bull_100 true
                                  (Some (mkResult [1; 99; 31; 101; 31] 0)))
           105).
  vm_compute; reflexivity.
Defined.

Lemma get_profit_samples :
  fst (get_profit sample_price initial_heap
         (mkStrategyOptimizerBS test_market bull_100 true (Some (mkResult [1; 99; 31; 101; 31] 0)))
         105 (Some 3%Z)) = Ok 0 /\
  exists one two both,
    fst (get_profit sample_price initial_heap
           (mkStrategyOptimizerBS test_market bull_100 true (Some (mkResult [1; 99; 31; 101; 31] 0)))
           105 (Some 1%Z)) = Ok one /\
    fst (get_profit sample_price initial_heap
           (mkStrategyOptimizerBS test_market bull_100 true (Some (mkResult [1; 99; 31; 101; 31] 0)))
           105 (Some 2%Z)) = Ok two /\
    fst (get_profit sample_price initial_heap
           (mkStrategyOptimizerBS test_market bull_100 true (Some (mkResult [1; 99; 31; 101; 31] 0)))
           105 None) = Ok both /\
    one == - (5 # 2) /\ two == 7 # 2 /\ both == 1.
Proof.
  split; [vm_compute; reflexivity|].
  do 3 eexists. repeat split; vm_compute; reflexivity.
Qed.

(** C5, at the failing input.  Two continuous optimizers over two bull
    call spreads (underlying 100 and 200), both optimized.  The legs the
    first one returns show strikes 99 and 101; after [best_strategy] has
    been read on the second, the very same dicts, and the [options] of the
    first optimizer's strategy, show strikes 199 and 201. *)
Theorem best_strategy_read_changes_sibling :
  let o1 := snd (StrategyOptimizerBS_optimize sample_price_fixed stalled_minimize
                   initial_heap continuous_bull_100) in
  let o2 := snd (StrategyOptimizerBS_optimize sample_price_fixed stalled_minimize
                   initial_heap continuous_bull_200) in
  let r1 := StrategyOptimizerBS_best_strategy initial_heap o1 in
  let r2 := StrategyOptimizerBS_best_strategy (snd r1) o2 in
  so_is_optimized o1 = true /\ so_is_optimized o2 = true /\
  fst r1 = Ok [(BullCallSpread, 0%nat); (BullCallSpread, 1%nat)] /\
  fst r2 = Ok [(BullCallSpread, 0%nat); (BullCallSpread, 1%nat)] /\
  map strike (map (read (snd r1)) [(BullCallSpread, 0%nat); (BullCallSpread, 1%nat)])
    = [Some 99; Some 101] /\
  map strike (map (read (snd r2)) [(BullCallSpread, 0%nat); (BullCallSpread, 1%nat)])
    = [Some 199; Some 201] /\
  map strike (options (snd r1) (so_strategy o1)) = [Some 99; Some 101] /\
  map strike (options (snd r2) (so_strategy o1)) = [Some 199; Some 201].
Proof.
  cbv zeta. repeat split; vm_compute; reflexivity.
Qed.



Lemma budget_samples :
  exists p1 p2,
    StrategyOptimizerBS_max_profit
      (snd (StrategyOptimizerBS_optimize sample_price_fixed straddle_minimize initial_heap
              (StrategyOptimizerBS_init straddle_100
                 (mkMarket 100 95 30%Z (1 # 4) (1 # 100) 100)))) = Ok p1 /\
    StrategyOptimizerBS_max_profit
      (snd (StrategyOptimizerBS_optimize sample_price_fixed straddle_minimize initial_heap
              (StrategyOptimizerBS_init straddle_100
                 (mkMarket 100 95 30%Z (1 # 4) (1 # 100) 200)))) = Ok p2 /\
    p1 == 200 /\ p2 == 400.
Proof.
  do 2 eexists. repeat split; vm_compute; reflexivity.
Qed.


(** * Further properties of the code *)

Section Further.

Variable price_option : Z -> Q -> Q -> Q -> Q -> Q -> Q.
Variable price_option_fixed : Z -> Z -> Q -> Q -> Q -> option Z -> Q -> Q -> Q.
Variable minimize : problem -> result OptimizeResult.

(** ** Grid search: what a run leaves behind *)

(** A run of [optimize] in terms of the state of its scan. *)
Lemma GridSearchBS_optimize_cases (h : heap) (g : GridSearchBS) :
  let m := gs_market g in
  let st := scan price_option m (strats (available_options (gs_strategy g))
                                        (options h (gs_strategy g))) in
  (sc_cost st == 0 /\
   GridSearchBS_optimize price_option h g =
     (Raise ZeroDivisionError,
      mkGridSearchBS m (gs_strategy g) true (Some (sc_max_profit st))
                     (Some (sc_opt_strategy st)) (_quantity g))) \/
  (~ sc_cost st == 0 /\
   GridSearchBS_optimize price_option h g =
     (Ok tt,
      mkGridSearchBS m (gs_strategy g) true (Some (sc_max_profit st))
                     (Some (sc_opt_strategy st))
                     (Some (Qabs (max_premium m / sc_cost st))))).
Proof.
  intros m st. unfold GridSearchBS_optimize. fold m. fold st. unfold py_div.
  destruct (Qeq_bool (sc_cost st) 0) eqn:E.
  - left. split; [apply Qeq_bool_iff; exact E | reflexivity].
  - right. split; [apply Qeq_bool_neq; exact E | reflexivity].
Qed.

(** The scan never stores a negative profit, and a positive one only
    together with a candidate. *)
Lemma scan_profit (m : market) (ss : list (list entry)) :
  (scan price_option m ss = mkScan 0 0 []) \/
  (0 < sc_max_profit (scan price_option m ss) /\
   sc_max_profit (scan price_option m ss)
     = combo_profit price_option m (sc_opt_strategy (scan price_option m ss)) /\
   In (sc_opt_strategy (scan price_option m ss)) ss).
Proof.
  unfold scan.
  destruct (scan_from price_option m ss (mkScan 0 0 []))
    as [[-> _] | (pre & w & post & -> & Hst & Hpos & _)].
  - left. reflexivity.
  - right. rewrite Hst. cbn. repeat split; [exact Hpos | apply in_elt].
Qed.

(** X1.  When [GridSearchBS.optimize] returns, the stored [max_profit] is
    strictly positive: a search in which no candidate earns more than
    nothing never completes. *)
Theorem grid_search_profit_positive (h : heap) (g g' : GridSearchBS) :
  GridSearchBS_optimize price_option h g = (Ok tt, g') ->
  exists w,
    _opt_strategy g' = Some w /\
    In w (strats (available_options (gs_strategy g)) (options h (gs_strategy g))) /\
    GridSearchBS_max_profit g' = Ok (combo_profit price_option (gs_market g) w) /\
    0 < combo_profit price_option (gs_market g) w.
Proof.
  intros Hrun.
  destruct (GridSearchBS_optimize_cases h g) as [[_ E] | [Hne E]];
    rewrite E in Hrun; [discriminate Hrun|]. injection Hrun as <-.
  set (ss := strats _ _) in *.
  destruct (scan_profit (gs_market g) ss) as [E0 | (Hpos & Hprof & Hin)].
  - exfalso. apply Hne. rewrite E0. reflexivity.
  - exists (sc_opt_strategy (scan price_option (gs_market g) ss)).
    unfold GridSearchBS_max_profit. cbn. rewrite <- Hprof. repeat split; auto.
Qed.

(** X3.  When [optimize] raises on a fresh [GridSearchBS], the error is
    [ZeroDivisionError] and the instance is left flagged as optimized:
    [max_profit] then answers with a non-negative number instead of
    raising, while [best_strategy] raises [AttributeError]. *)
Theorem grid_search_failed_run (h : heap) (s : OptionsStrategy) (m : market)
    (e : exn) (g' : GridSearchBS) :
  GridSearchBS_optimize price_option h (GridSearchBS_init s m) = (Raise e, g') ->
  e = ZeroDivisionError /\
  gs_is_optimized g' = true /\
  (exists v, GridSearchBS_max_profit g' = Ok v /\ 0 <= v) /\
  GridSearchBS_best_strategy g' = Raise (AttributeError "_quantity").
Proof.
  intros Hrun.
  destruct (GridSearchBS_optimize_cases h (GridSearchBS_init s m)) as [[_ E] | [_ E]];
    rewrite E in Hrun; [|discriminate Hrun]. injection Hrun as <- <-.
  split; [reflexivity|]. split; [reflexivity|]. split; [|reflexivity].
  eexists. split; [reflexivity|].
  cbn [gs_market gs_strategy GridSearchBS_init].
  set (ss := strats _ _).
  destruct (scan_profit m ss) as [-> | (Hpos & _)]; [cbn; lra | lra].
Qed.

(** X4.  The grid search does not look at the horizon or at the budget
    when it ranks the candidates: two searches that differ in
    [days_forward] and [max_premium] only store the same profit and the
    same combination. *)
Theorem grid_search_ignores_horizon_and_budget (h : heap) (s : OptionsStrategy)
    (S F sg rt M1 M2 : Q) (D1 D2 : Z) :
  let g1 := snd (GridSearchBS_optimize price_option h
                   (GridSearchBS_init s (mkMarket S F D1 sg rt M1))) in
  let g2 := snd (GridSearchBS_optimize price_option h
                   (GridSearchBS_init s (mkMarket S F D2 sg rt M2))) in
  _max_profit g1 = _max_profit g2 /\ _opt_strategy g1 = _opt_strategy g2.
Proof.
  intros g1 g2. subst g1 g2.
  destruct (GridSearchBS_optimize_cases h (GridSearchBS_init s (mkMarket S F D1 sg rt M1)))
    as [[_ ->] | [_ ->]];
    destruct (GridSearchBS_optimize_cases h (GridSearchBS_init s (mkMarket S F D2 sg rt M2)))
      as [[_ ->] | [_ ->]];
    split; reflexivity.
Qed.

(** ** Grid search: the candidates *)

Lemma get_extend_bucket (bs : buckets) (b b' : bucket) (es : list entry) :
  get_bucket (extend_bucket bs b es) b'
  = get_bucket bs b' ++ (if bucket_eqb b b' then es else []).
Proof. destruct b, b'; cbn; rewrite ?app_nil_r; reflexivity. Qed.

Lemma build_from (cat : catalog) (opts : list leg) (st : buckets * list bucket) :
  snd (fold_left (build_step cat) opts st) = snd st ++ map combo_target opts /\
  forall b, get_bucket (fst (fold_left (build_step cat) opts st)) b
            = get_bucket (fst st) b ++ bucket_content cat opts b.
Proof.
  revert st. induction opts as [|option opts IH]; intros st.
  - cbn. rewrite app_nil_r. split; [reflexivity|]. intros b. now rewrite app_nil_r.
  - cbn [fold_left]. destruct (IH (build_step cat st option)) as [Hs Hb]. split.
    + rewrite Hs. cbn. now rewrite <- app_assoc.
    + intros b. rewrite Hb. cbn [build_step fst]. rewrite get_extend_bucket.
      unfold bucket_content. cbn [flat_map]. now rewrite <- app_assoc.
Qed.

Lemma strats_as_product (cat : catalog) (opts : list leg) :
  strats cat opts
  = product (map (fun option => bucket_content cat opts (combo_target option)) opts).
Proof.
  unfold strats, build.
  destruct (build_from cat opts (mkBuckets [] [] [] [], [])) as [Hs Hb].
  rewrite Hs. cbn [snd app]. rewrite map_map. f_equal.
  apply map_ext. intros option. rewrite Hb. destruct (combo_target option); reflexivity.
Qed.

(** X5.  The four candidate lists are shared by the legs: the list a leg
    draws from holds the catalog entries of every leg of the strategy that
    appends to it, so two legs of one type and action each draw from both
    legs' entries. *)
Theorem strats_shared_lists (cat : catalog) (opts : list leg) :
  strats cat opts
  = product (map (fun option => bucket_content cat opts (combo_target option)) opts) /\
  forall option : leg,
    type option = "call"%string -> action option = "buy"%string ->
    strats cat [option; option]
    = product [leg_entries cat option ++ leg_entries cat option;
               leg_entries cat option ++ leg_entries cat option].
Proof.
  split; [apply strats_as_product|].
  intros option Hty Hact. rewrite strats_as_product.
  unfold bucket_content. cbn [map flat_map].
  unfold combo_target, append_target. rewrite Hty, Hact.
  cbn. rewrite !app_nil_r. reflexivity.
Qed.

Lemma product_length {T : Type} (ls : list (list T)) :
  List.length (product ls) = fold_right Nat.mul 1%nat (map (@List.length T) ls).
Proof.
  induction ls as [|l ls IH]; [reflexivity|].
  cbn [product map fold_right]. rewrite <- IH. clear IH.
  induction l as [|a l IHl]; [reflexivity|].
  cbn [flat_map]. rewrite length_app, length_map, IHl. reflexivity.
Qed.

(** X6.  The number of candidates is the product of the sizes of the lists
    the legs draw from, and every candidate picks one entry per leg. *)
Theorem strats_count (cat : catalog) (opts : list leg) :
  List.length (strats cat opts)
  = fold_right Nat.mul 1%nat
      (map (fun option => List.length (bucket_content cat opts (combo_target option))) opts) /\
  forall s, In s (strats cat opts) -> List.length s = List.length opts.
Proof.
  rewrite strats_as_product. split.
  - rewrite product_length, map_map. reflexivity.
  - intros s Hin. apply product_In in Hin. apply Forall2_length in Hin.
    now rewrite length_map in Hin.
Qed.

(** X7.  The entries a leg appends are exactly the strikes the catalog
    lists, under any expiration, under any key that equals the leg's type
    once put in lower case; each carries the leg's two flags. *)
Theorem leg_entries_spec (cat : catalog) (option : leg) (e : entry) :
  In e (leg_entries cat option) <->
  e_call_flag e = call_flag_of option /\
  e_buy_flag e = (if String.eqb (action option) "buy" then 1%Z else (-1)%Z) /\
  exists key by_days strikes,
    In (key, by_days) cat /\ lower key = type option /\
    In (e_days e, strikes) by_days /\ In (e_strike e) strikes.
Proof.
  split; [apply leg_entries_In|].
  intros (Hcf & Hbf & key & by_days & strikes & Hkey & Hty & Hdays & Hk).
  unfold leg_entries. apply in_flat_map. exists (key, by_days). split; [exact Hkey|].
  cbn [fst snd]. rewrite <- Hty, String.eqb_refl.
  apply in_flat_map. exists (e_days e, strikes). split; [exact Hdays|].
  cbn [fst snd]. apply in_map_iff. exists (e_strike e). split; [|exact Hk].
  destruct e as [cf bf k d]. cbn [e_call_flag e_buy_flag e_strike e_days] in *.
  subst cf bf. reflexivity.
Qed.

(** ** Strategies: bounds, initial guess and constraint system *)

Lemma fold_py_min_le (xs : list Q) (x : Q) :
  fold_left py_min xs x <= x /\ forall y, In y xs -> fold_left py_min xs x <= y.
Proof.
  revert x. induction xs as [|a xs IH]; intros x.
  - split; [apply Qle_refl | intros y []].
  - cbn [fold_left]. destruct (IH (py_min x a)) as [Hx Hall].
    assert (Hmin : py_min x a <= x /\ py_min x a <= a).
    { unfold py_min. destruct (Qltb a x) eqn:E.
      - apply Qltb_true in E. split; lra.
      - apply Qltb_false in E. split; lra. }
    destruct Hmin as [Hm1 Hm2].
    split; [lra|]. intros y [<- | Hin]; [lra | auto].
Qed.

Lemma fold_py_max_ge (xs : list Q) (x : Q) :
  x <= fold_left py_max xs x /\ forall y, In y xs -> y <= fold_left py_max xs x.
Proof.
  revert x. induction xs as [|a xs IH]; intros x.
  - split; [apply Qle_refl | intros y []].
  - cbn [fold_left]. destruct (IH (py_max x a)) as [Hx Hall].
    assert (Hmax : x <= py_max x a /\ a <= py_max x a).
    { unfold py_max. destruct (Qltb x a) eqn:E.
      - apply Qltb_true in E. split; lra.
      - apply Qltb_false in E. split; lra. }
    destruct Hmax as [Hm1 Hm2].
    split; [lra|]. intros y [<- | Hin]; [lra | auto].
Qed.

Lemma fold_py_minZ_le (xs : list Z) (x : Z) :
  (fold_left py_minZ xs x <= x)%Z /\ forall y, In y xs -> (fold_left py_minZ xs x <= y)%Z.
Proof.
  revert x. induction xs as [|a xs IH]; intros x.
  - cbn. split; [lia | intros y []].
  - cbn [fold_left]. destruct (IH (py_minZ x a)) as [Hx Hall].
    assert (Hmin : (py_minZ x a <= x /\ py_minZ x a <= a)%Z).
    { unfold py_minZ. destruct (Z.ltb_spec a x); lia. }
    split; [lia|]. intros y [<- | Hin]; [lia | auto].
Qed.

Lemma fold_py_maxZ_ge (xs : list Z) (x : Z) :
  (x <= fold_left py_maxZ xs x)%Z /\ forall y, In y xs -> (y <= fold_left py_maxZ xs x)%Z.
Proof.
  revert x. induction xs as [|a xs IH]; intros x.
  - cbn. split; [lia | intros y []].
  - cbn [fold_left]. destruct (IH (py_maxZ x a)) as [Hx Hall].
    assert (Hmax : (x <= py_maxZ x a /\ a <= py_maxZ x a)%Z).
    { unfold py_maxZ. destruct (Z.ltb_spec x a); lia. }
    split; [lia|]. intros y [<- | Hin]; [lia | auto].
Qed.

Lemma py_min_seq_le (xs : list Q) (v y : Q) : py_min_seq xs = Ok v -> In y xs -> v <= y.
Proof.
  destruct xs as [|x xs]; [discriminate|]. intros H. injection H as <-.
  destruct (fold_py_min_le xs x) as [Hx Hall]. intros [<- | Hin]; auto.
Qed.

Lemma py_max_seq_ge (xs : list Q) (v y : Q) : py_max_seq xs = Ok v -> In y xs -> y <= v.
Proof.
  destruct xs as [|x xs]; [discriminate|]. intros H. injection H as <-.
  destruct (fold_py_max_ge xs x) as [Hx Hall]. intros [<- | Hin]; auto.
Qed.

Lemma mapM_In {T U : Type} (f : T -> result U) (l : list T) (vs : list U) (a : T) :
  mapM f l = Ok vs -> In a l -> exists v, f a = Ok v /\ In v vs.
Proof.
  revert vs. induction l as [|b l IH]; intros vs H Hin; [destruct Hin|].
  cbn in H. destruct (f b) as [vb|] eqn:Eb; [|discriminate H]. cbn in H.
  destruct (mapM f l) as [vl|] eqn:El; [|discriminate H]. cbn in H. injection H as <-.
  destruct Hin as [<- | Hin].
  - exists vb. split; [exact Eb | left; reflexivity].
  - destruct (IH vl eq_refl Hin) as [v [Hv Hvin]]. exists v. split; [exact Hv | right; exact Hvin].
Qed.

(** X8.  The statistics [bounds] takes of one option type enclose the
    catalog: every expiration listed under the key lies between the least
    and the greatest expiration found, every strike between the least and
    the greatest strike. *)
Theorem stats_of_enclose (key : string) (cat : catalog) (st : chain_stats) (by_days : chain)
    (days : Z) (strikes : list Q) (k : Q) :
  stats_of key cat = Ok st ->
  dict_get key cat = Ok by_days ->
  In (days, strikes) by_days -> In k strikes ->
  (min_days st <= days <= max_days st)%Z /\ min_strike st <= k /\ k <= max_strike st.
Proof.
  unfold stats_of. intros Hst Hget Hd Hk. rewrite Hget in Hst. cbn [bind] in Hst.
  destruct (py_min_seqZ (map fst by_days)) as [mn_d|] eqn:Emn; [|discriminate Hst].
  destruct (py_max_seqZ (map fst by_days)) as [mx_d|] eqn:Emx; [|discriminate Hst].
  cbn [bind] in Hst.
  destruct (mapM (fun e => py_min_seq (snd e)) by_days) as [mins|] eqn:Emins; [|discriminate Hst].
  cbn [bind] in Hst.
  destruct (py_min_seq mins) as [mn_k|] eqn:Emnk; [|discriminate Hst]. cbn [bind] in Hst.
  destruct (mapM (fun e => py_max_seq (snd e)) by_days) as [maxs|] eqn:Emaxs; [|discriminate Hst].
  cbn [bind] in Hst.
  destruct (py_max_seq maxs) as [mx_k|] eqn:Emxk; [|discriminate Hst]. cbn [bind] in Hst.
  injection Hst as <-. cbn [min_days max_days min_strike max_strike].
  assert (Hdin : In days (map fst by_days)) by (apply (in_map fst) in Hd; exact Hd).
  split; [split|split].
  - destruct (map fst by_days) as [|x xs]; [destruct Hdin|]. injection Emn as <-.
    destruct (fold_py_minZ_le xs x) as [Hx Hall]. destruct Hdin as [<- | Hin]; auto.
  - destruct (map fst by_days) as [|x xs]; [destruct Hdin|]. injection Emx as <-.
    destruct (fold_py_maxZ_ge xs x) as [Hx Hall]. destruct Hdin as [<- | Hin]; auto.
  - destruct (mapM_In _ _ _ _ Emins Hd) as [v [Hv Hvin]]. cbn [snd] in Hv.
    pose proof (py_min_seq_le _ _ _ Hv Hk). pose proof (py_min_seq_le _ _ _ Emnk Hvin). lra.
  - destruct (mapM_In _ _ _ _ Emaxs Hd) as [v [Hv Hvin]]. cbn [snd] in Hv.
    pose proof (py_max_seq_ge _ _ _ Hv Hk). pose proof (py_max_seq_ge _ _ _ Emxk Hvin). lra.
Qed.


(** X10.  For the four strategies other than the bull call spread the
    initial guess never lies within the bounds: its expirations are the
    minimum days, and the bounds start at least one day later. *)
Theorem x0_outside_bounds (s : OptionsStrategy) (b : list (Q * Q)) :
  cls s <> BullCallSpread ->
  bounds s = Ok b ->
  ~ Forall2 within b (x0 s).
Proof.
  intros Hc Hb Hin.
  assert (Hday : forall st, ~ within (days_bound s st) (inject_Z (min_days_to_expiration s))).
  { intros st [Hlo _]. unfold days_bound in Hlo. cbn [fst] in Hlo.
    rewrite <- Zle_Qle in Hlo. unfold py_maxZ in Hlo.
    destruct (Z.ltb_spec (min_days st) (min_days_to_expiration s + 1)); lia. }
  unfold bounds, x0 in *. destruct (cls s); [congruence| | | |];
    repeat match type of Hb with
           | context [stats_of ?k ?c] => destruct (stats_of k c); cbn [bind] in Hb
           end;
    try discriminate Hb; injection Hb as <-;
    inversion Hin as [|? ? ? ? _ H1]; subst;
    inversion H1 as [|? ? ? ? _ H2]; subst;
    inversion H2 as [|? ? ? ? Hd _]; subst;
    exact (Hday _ Hd).
Qed.

(** ** [get_profit] and the leg argument *)

(** X12.  A negative [leg] is taken as a slice bound, not refused: with
    two legs, [leg = -1] selects the first leg, as [leg = 1] does, and any
    [leg] below [-1] selects nothing and yields a profit of 0. *)
Theorem get_profit_negative_leg (h0 h : heap) (o0 o : StrategyOptimizerBS) (p : Q) :
  declared h ->
  StrategyOptimizerBS_optimize price_option_fixed minimize h0 o0 = (Ok tt, o) ->
  get_profit price_option h o p (Some (-1)%Z) = get_profit price_option h o p (Some 1%Z) /\
  forall n : Z, (n < -1)%Z -> fst (get_profit price_option h o p (Some n)) = Ok 0.
Proof.
  intros Hd Hrun.
  destruct (StrategyOptimizerBS_optimize_ok _ _ _ _ _ Hrun) as (b & res & _ & _ & ->).
  set (o := mkStrategyOptimizerBS _ _ _ _).
  assert (L : List.length (solved_legs h o (opt_x res)) = 2%nat).
  { unfold solved_legs. rewrite annotate_length.
    destruct (declared_two_legs h (cls (so_strategy o)) Hd) as (l1 & l2 & -> & _). reflexivity. }
  split.
  - rewrite !(get_profit_optimized price_option h o res p _ eq_refl eq_refl).
    cbv zeta. rewrite L. reflexivity.
  - intros n Hn.
    rewrite (get_profit_optimized price_option h o res p _ eq_refl eq_refl).
    cbn [fst]. cbv zeta. rewrite L.
    assert (Ht : truthy (Some n) = true).
    { unfold truthy. destruct (Z.eqb_spec n 0); [lia | reflexivity]. }
    rewrite Ht.
    assert (Es : py_slice (seq 0 2) (n - 1) n = []).
    { unfold py_slice, clamp_index. cbn [List.length seq Z.of_nat].
      destruct (Z.ltb_spec (n - 1) 0); [|lia]. destruct (Z.ltb_spec n 0); [|lia].
      change (Z.pos (Pos.of_succ_nat 1)) with 2%Z.
      replace (Z.max (n + 2) 0 - Z.max (n - 1 + 2) 0)%Z with 0%Z by lia.
      reflexivity. }
    rewrite Es. reflexivity.
Qed.

(** X13.  Reading [best_strategy] on a continuous optimizer touches the
    leg dicts of its own strategy class only: the dicts of every other
    class are as before, and those of its own class keep their number. *)
Theorem best_strategy_frame (h : heap) (o : StrategyOptimizerBS) (c : strategy_class) :
  c <> cls (so_strategy o) ->
  snd (StrategyOptimizerBS_best_strategy h o) c = h c /\
  List.length (snd (StrategyOptimizerBS_best_strategy h o) (cls (so_strategy o)))
    = List.length (h (cls (so_strategy o))).
Proof.
  intros Hc. unfold StrategyOptimizerBS_best_strategy.
  destruct (so_is_optimized o); cbn [negb]; [|split; reflexivity].
  destruct (_optimization_result o) as [res|]; [|split; reflexivity].
  cbn [snd]. split.
  - unfold upd. destruct (strategy_class_eqb (cls (so_strategy o)) c) eqn:E; [|reflexivity].
    exfalso. apply Hc. destruct (cls (so_strategy o)), c; (reflexivity || discriminate E).
  - rewrite upd_same. apply annotate_length.
Qed.

(** ** When [bounds] and the continuous [optimize] fail *)

Lemma mapM_nonempty_inv (f : list Q -> result Q) (by_days : chain) (vs : list Q) :
  f [] = Raise (ValueError "min() arg is an empty sequence")
  \/ f [] = Raise (ValueError "max() arg is an empty sequence") ->
  mapM (fun e => f (snd e)) by_days = Ok vs ->
  forallb (fun e : Z * list Q => negb (is_empty (snd e))) by_days = true.
Proof.
  intros Hf. revert vs. induction by_days as [|[d ks] tl IH]; intros vs H; [reflexivity|].
  cbn in H |- *. destruct ks as [|k ks].
  - destruct Hf as [Hf | Hf]; rewrite Hf in H; discriminate H.
  - destruct (f (k :: ks)); [|discriminate H]. cbn in H.
    destruct (mapM (fun e => f (snd e)) tl) as [vl|] eqn:E; [|discriminate H].
    cbn. exact (IH vl eq_refl).
Qed.

Lemma stats_of_populated (key : string) (cat : catalog) (st : chain_stats) :
  stats_of key cat = Ok st -> populated key cat = true.
Proof.
  unfold stats_of, populated. destruct (dict_get key cat) as [by_days|]; [|discriminate].
  cbn [bind]. intros H.
  destruct by_days as [|e tl]; [discriminate H|].
  cbn [py_min_seqZ py_max_seqZ map bind] in H.
  destruct (mapM (fun e0 => py_min_seq (snd e0)) (e :: tl)) as [mins|] eqn:E; [|discriminate H].
  cbn [is_empty negb andb].
  apply (mapM_nonempty_inv py_min_seq (e :: tl) mins); [left; reflexivity | exact E].
Qed.

Lemma bounds_defined (s : OptionsStrategy) :
  (exists b, bounds s = Ok b) <->
  forallb (fun key => populated key (available_options s)) (consulted (cls s)) = true.
Proof.
  split.
  - intros [b Hb]. unfold bounds in Hb. destruct (cls s); cbn [consulted forallb];
      repeat match type of Hb with
             | context [stats_of ?k ?c] =>
                 let E := fresh "E" in
                 destruct (stats_of k c) eqn:E; cbn [bind] in Hb;
                 [apply stats_of_populated in E; rewrite E | discriminate Hb]
             end; reflexivity.
  - intros Hpop.
    destruct (x0_bounds_lengths_aux s Hpop) as [b Hb]. exists b. exact Hb.
Qed.

(** X14.  [bounds] is defined exactly when the catalog is populated under
    every key the strategy reads: the key is there, it lists at least one
    expiration, and every expiration lists at least one strike.  A missing
    key gives [KeyError], an empty listing [ValueError]. *)
Theorem bounds_defined_iff (s : OptionsStrategy) :
  ((exists b, bounds s = Ok b) <->
   forallb (fun key => populated key (available_options s)) (consulted (cls s)) = true) /\
  forall e, bounds s = Raise e ->
            (exists key, e = KeyError key /\ In key (consulted (cls s)) /\
                         dict_get key (available_options s) = Raise (KeyError key)) \/
            (exists msg, e = ValueError msg).
Proof.
  split; [apply bounds_defined|].
  intros e He.
  assert (Hst : forall key st_e, stats_of key (available_options s) = Raise st_e ->
                  (st_e = KeyError key /\
                   dict_get key (available_options s) = Raise (KeyError key)) \/
                  (exists msg, st_e = ValueError msg)).
  { intros key st_e. unfold stats_of.
    destruct (dict_get key (available_options s)) as [by_days|e0] eqn:Eg.
    - cbn [bind]. intros H. right.
      destruct (py_min_seqZ (map fst by_days)) eqn:E1;
        [|destruct (map fst by_days); [injection E1 as <-|discriminate E1];
          injection H as <-; eexists; reflexivity].
      destruct (py_max_seqZ (map fst by_days)) eqn:E2;
        [|destruct (map fst by_days); [injection E2 as <-|discriminate E2];
          injection H as <-; eexists; reflexivity].
      cbn [bind] in H.
      assert (Hm : forall (f : list Q -> result Q) l err,
                 (forall ks v, f ks = Raise v -> exists msg, v = ValueError msg) ->
                 mapM (fun e1 : Z * list Q => f (snd e1)) l = Raise err ->
                 exists msg, err = ValueError msg).
      { intros f l err Hf. induction l as [|item l IH]; [discriminate|].
        cbn. destruct (f (snd item)) eqn:Ea; cbn.
        - destruct (mapM (fun e1 : Z * list Q => f (snd e1)) l); cbn; [discriminate|].
          intros H'. injection H' as <-. apply IH. reflexivity.
        - intros H'. injection H' as <-. exact (Hf _ _ Ea). }
      assert (Hmin : forall ks v, py_min_seq ks = Raise v -> exists msg, v = ValueError msg).
      { intros [|k ks] v Hv; [injection Hv as <-; eexists; reflexivity | discriminate Hv]. }
      assert (Hmax : forall ks v, py_max_seq ks = Raise v -> exists msg, v = ValueError msg).
      { intros [|k ks] v Hv; [injection Hv as <-; eexists; reflexivity | discriminate Hv]. }
      destruct (mapM (fun e1 => py_min_seq (snd e1)) by_days) as [mins|em] eqn:E3;
        [|injection H as <-; exact (Hm _ _ _ Hmin E3)].
      cbn [bind] in H.
      destruct (py_min_seq mins) as [mn|em] eqn:E4;
        [|injection H as <-; exact (Hmin _ _ E4)].
      cbn [bind] in H.
      destruct (mapM (fun e1 => py_max_seq (snd e1)) by_days) as [maxs|em] eqn:E5;
        [|injection H as <-; exact (Hm _ _ _ Hmax E5)].
      cbn [bind] in H.
      destruct (py_max_seq maxs) as [mx|em] eqn:E6;
        [discriminate H | injection H as <-; exact (Hmax _ _ E6)].
    - cbn [bind]. intros H. injection H as <-. left.
      assert (e0 = KeyError key).
      { clear -Eg. induction (available_options s) as [|[k v] d IH]; cbn in Eg.
        - congruence.
        - destruct (String.eqb key k); [discriminate Eg | exact (IH Eg)]. }
      subst e0. split; reflexivity. }
  unfold bounds in He. destruct (cls s); cbn [consulted];
    repeat match type of He with
           | context [stats_of ?k ?c] =>
               let E := fresh "E" in
               destruct (stats_of k c) eqn:E; cbn [bind] in He;
               [|injection He as <-; destruct (Hst _ _ E) as [[-> Hg] | Hv];
                 [left; eexists; split; [reflexivity|]; split; [cbn; tauto | exact Hg]
                 | right; exact Hv]]
           end; discriminate He.
Qed.

(** ** The parallel optimizer *)

Lemma mapM_In_inv {T U : Type} (f : T -> result U) (l : list T) (vs : list U) (v : U) :
  mapM f l = Ok vs -> In v vs -> exists a, In a l /\ f a = Ok v.
Proof.
  revert vs. induction l as [|b l IH]; intros vs H Hin.
  - injection H as <-. destruct Hin.
  - cbn in H. destruct (f b) as [vb|] eqn:Eb; [|discriminate H]. cbn in H.
    destruct (mapM f l) as [vl|] eqn:El; [|discriminate H]. cbn in H. injection H as <-.
    destruct Hin as [<- | Hin].
    + exists b. split; [left; reflexivity | exact Eb].
    + destruct (IH vl eq_refl Hin) as [a [Ha Hfa]]. exists a. split; [right; exact Ha | exact Hfa].
Qed.

Lemma fold_py_max_In (xs : list Q) (x : Q) :
  fold_left py_max xs x = x \/ In (fold_left py_max xs x) xs.
Proof.
  revert x. induction xs as [|a xs IH]; intros x; [left; reflexivity|].
  cbn [fold_left]. destruct (IH (py_max x a)) as [E | Hin].
  - rewrite E. unfold py_max. destruct (Qltb x a); [right; left; reflexivity | left; reflexivity].
  - right. right. exact Hin.
Qed.

(** X16.  The [max_profit] of an optimized parallel optimizer is the
    [max_profit] of one of its optimizers, and no optimizer has a greater
    one. *)
Theorem ParallelStrategyOptimizerBS_max_profit_greatest (p : ParallelStrategyOptimizerBS) (v : Q) :
  ParallelStrategyOptimizerBS_max_profit p = Ok v ->
  (exists o, In o (_strategy_optimizers p) /\ StrategyOptimizerBS_max_profit o = Ok v) /\
  forall o, In o (_strategy_optimizers p) ->
            exists vo, StrategyOptimizerBS_max_profit o = Ok vo /\ vo <= v.
Proof.
  unfold ParallelStrategyOptimizerBS_max_profit.
  destruct (ps_is_optimized p); cbn [negb]; [|discriminate].
  destruct (mapM StrategyOptimizerBS_max_profit (_strategy_optimizers p)) as [profits|] eqn:E;
    [|discriminate].
  cbn [bind]. intros Hmax. split.
  - assert (Hin : In v profits).
    { destruct profits as [|x xs]; [discriminate Hmax|]. injection Hmax as <-.
      destruct (fold_py_max_In xs x) as [-> | Hin]; [left; reflexivity | right; exact Hin]. }
    destruct (mapM_In_inv _ _ _ _ E Hin) as [o [Ho Hv]]. exists o. split; assumption.
  - intros o Ho. destruct (mapM_In _ _ _ _ E Ho) as [vo [Hvo Hin]].
    exists vo. split; [exact Hvo|]. exact (py_max_seq_ge _ _ _ Hmax Hin).
Qed.

Lemma max_by_key_greatest (best : StrategyOptimizerBS) (key : Q)
    (oks : list (StrategyOptimizerBS * Q)) :
  exists k, In (max_by_key best key oks, k) ((best, key) :: oks) /\
            forall o' k', In (o', k') ((best, key) :: oks) -> k' <= k.
Proof.
  revert best key. induction oks as [|[o k] oks IH]; intros best key.
  - exists key. split; [left; reflexivity|]. intros o' k' [E | []]. injection E as _ <-. lra.
  - cbn [max_by_key]. destruct (Qltb key k) eqn:E.
    + apply Qltb_true in E. destruct (IH o k) as [k0 [Hin Hall]].
      exists k0. split; [right; exact Hin|].
      intros o' k' [E' | Hin']; [|apply (Hall o' k' Hin')].
      injection E' as _ <-. pose proof (Hall o k (or_introl eq_refl)). lra.
    + apply Qltb_false in E. destruct (IH best key) as [k0 [Hin Hall]].
      exists k0. split.
      * destruct Hin as [Hin | Hin]; [left; exact Hin | right; right; exact Hin].
      * intros o' k' [E' | [E' | Hin']].
        -- apply (Hall o' k'). left. exact E'.
        -- injection E' as _ <-. pose proof (Hall best key (or_introl eq_refl)). lra.
        -- apply (Hall o' k'). right. exact Hin'.
Qed.

(** X17.  The [best_strategy] of an optimized parallel optimizer is the
    [best_strategy] of one of its optimizers whose [max_profit] no other
    optimizer exceeds. *)
Theorem ParallelStrategyOptimizerBS_best_strategy_greatest (h h' : heap)
    (p : ParallelStrategyOptimizerBS) (refs : list ref) :
  ParallelStrategyOptimizerBS_best_strategy h p = (Ok refs, h') ->
  exists o v,
    In o (_strategy_optimizers p) /\
    StrategyOptimizerBS_best_strategy h o = (Ok refs, h') /\
    StrategyOptimizerBS_max_profit o = Ok v /\
    forall o', In o' (_strategy_optimizers p) ->
               exists v', StrategyOptimizerBS_max_profit o' = Ok v' /\ v' <= v.
Proof.
  unfold ParallelStrategyOptimizerBS_best_strategy.
  destruct (ps_is_optimized p); cbn [negb]; [|discriminate].
  set (key := fun o => k <- StrategyOptimizerBS_max_profit o ;; Ok (o, k)).
  destruct (mapM key (_strategy_optimizers p)) as [oks|] eqn:E; [|discriminate].
  destruct oks as [|[o k] oks]; [discriminate|].
  intros Hbest.
  assert (Hkey : forall o' k', In (o', k') ((o, k) :: oks) ->
                   In o' (_strategy_optimizers p) /\ StrategyOptimizerBS_max_profit o' = Ok k').
  { intros o' k' Hin. destruct (mapM_In_inv _ _ _ _ E Hin) as [a [Ha Hfa]].
    unfold key in Hfa. destruct (StrategyOptimizerBS_max_profit a) as [ka|] eqn:Ea;
      [|discriminate Hfa]. cbn in Hfa. injection Hfa as -> ->. split; assumption. }
  destruct (max_by_key_greatest o k oks) as [k0 [Hin Hall]].
  destruct (Hkey _ _ Hin) as [Ho Hv].
  exists (max_by_key o k oks), k0. repeat split; auto.
  intros o' Ho'. destruct (mapM_In _ _ _ _ E Ho') as [[o'' k'] [Hk' Hin']].
  unfold key in Hk'. destruct (StrategyOptimizerBS_max_profit o') as [ko|] eqn:Eo;
    [|discriminate Hk']. cbn in Hk'. injection Hk' as <- <-.
  exists ko. split; [reflexivity|]. exact (Hall _ _ Hin').
Qed.

Lemma optimize_all_spec (h : heap) (os : list StrategyOptimizerBS) :
  fst (optimize_all price_option_fixed minimize h os) = Ok tt ->
  Forall (fun o => so_is_optimized o = true /\ exists v, StrategyOptimizerBS_max_profit o = Ok v)
         (snd (optimize_all price_option_fixed minimize h os)) /\
  map so_strategy (snd (optimize_all price_option_fixed minimize h os)) = map so_strategy os.
Proof.
  induction os as [|o os IH]; cbn [optimize_all fst snd]; intros H.
  - split; [constructor | reflexivity].
  - unfold StrategyOptimizerBS_optimize in *.
    destruct (bounds (so_strategy o)) as [b|e]; cbn [fst snd] in H |- *; [|discriminate H].
    destruct (minimize (problem_of price_option_fixed h o b)) as [res|e];
      cbn [fst snd] in H |- *; [|discriminate H].
    destruct (IH H) as [Hall Hmap]. split.
    + constructor; [|exact Hall]. split; [reflexivity|]. eexists. reflexivity.
    + cbn [map so_strategy]. now rewrite Hmap.
Qed.

(** X18.  When the parallel [optimize] returns on a non-empty list of
    strategies, every optimizer it holds is optimized, in the order of the
    strategies, and [max_profit] returns a number. *)
Theorem ParallelStrategyOptimizerBS_optimize_ok (h : heap) (s : OptionsStrategy)
    (ss : list OptionsStrategy) (m : market) (p' : ParallelStrategyOptimizerBS) :
  ParallelStrategyOptimizerBS_optimize price_option_fixed minimize h
    (ParallelStrategyOptimizerBS_init (s :: ss) m) = (Ok tt, p') ->
  ps_is_optimized p' = true /\
  map so_strategy (_strategy_optimizers p') = s :: ss /\
  Forall (fun o => so_is_optimized o = true) (_strategy_optimizers p') /\
  exists v, ParallelStrategyOptimizerBS_max_profit p' = Ok v.
Proof.
  unfold ParallelStrategyOptimizerBS_optimize.
  remember (_strategy_optimizers (ParallelStrategyOptimizerBS_init (s :: ss) m)) as os eqn:Eos.
  pose proof (optimize_all_spec h os) as Hspec.
  remember (optimize_all price_option_fixed minimize h os) as rs eqn:Ers.
  destruct (fst rs) as [[]|e] eqn:E; [|discriminate].
  intros H. injection H as <-. cbn [ps_is_optimized _strategy_optimizers].
  destruct (Hspec eq_refl) as [Hall Hmap]. clear Hspec.
  assert (Hos : map so_strategy os = s :: ss).
  { rewrite Eos. cbn [_strategy_optimizers ParallelStrategyOptimizerBS_init].
    rewrite map_map. cbn [so_strategy StrategyOptimizerBS_init]. apply map_id. }
  split; [reflexivity|]. split; [congruence|]. split.
  { eapply Forall_impl; [|exact Hall]. intros o [Ho _]. exact Ho. }
  unfold ParallelStrategyOptimizerBS_max_profit. cbn [ps_is_optimized negb _strategy_optimizers].
  assert (Hok : exists profits, mapM StrategyOptimizerBS_max_profit (snd rs) = Ok profits /\
                                List.length profits = List.length (snd rs)).
  { clear Hmap E Ers. induction Hall as [|o l [_ [v Hv]] _ IH].
    - exists []. split; reflexivity.
    - destruct IH as [vs [Hvs Hlen]]. exists (v :: vs). cbn. rewrite Hv. cbn. rewrite Hvs.
      split; [reflexivity | cbn; congruence]. }
  destruct Hok as [profits [Hp Hlen]]. rewrite Hp. cbn [bind].
  assert (Hne : List.length (snd rs) = List.length (s :: ss)).
  { rewrite <- Hos, <- Hmap, length_map. reflexivity. }
  destruct profits as [|x xs]; [cbn in Hlen, Hne; congruence|].
  eexists. reflexivity.
Qed.

(** X19.  A parallel optimizer over no strategy at all optimizes without
    error; afterwards [max_profit] and [best_strategy] raise [ValueError]
    (the greatest of nothing) and [get_optimized_strategies] returns the
    empty mapping. *)
Theorem ParallelStrategyOptimizerBS_no_strategies (h : heap) (m : market) :
  let run := ParallelStrategyOptimizerBS_optimize price_option_fixed minimize h
               (ParallelStrategyOptimizerBS_init [] m) in
  fst run = Ok tt /\
  ParallelStrategyOptimizerBS_max_profit (snd run)
    = Raise (ValueError "max() arg is an empty sequence") /\
  ParallelStrategyOptimizerBS_best_strategy h (snd run)
    = (Raise (ValueError "max() arg is an empty sequence"), h) /\
  get_optimized_strategies h (snd run) = (Ok [], h).
Proof. repeat split. Qed.

(** ** Catalogs the program builds itself *)

Lemma range_by_5_nonempty (stop : Z) : (0 < stop)%Z <-> range_by_5 stop <> [].
Proof.
  unfold range_by_5. split.
  - intros H. assert (1 <= (stop + 4) / 5)%Z by (apply Z.div_le_lower_bound; lia).
    destruct (Z.to_nat ((stop + 4) / 5)) eqn:E; [lia | discriminate].
  - intros H. destruct (Z.to_nat ((stop + 4) / 5)) eqn:E; [exfalso; apply H; reflexivity|].
    destruct (Z.le_gt_cases stop 0) as [Hle|]; [|assumption].
    assert ((stop + 4) / 5 <= 0)%Z.
    { apply Z.lt_succ_r. apply Z.div_lt_upper_bound; lia. }
    lia.
Qed.

Lemma continuous_prices_populated (price days multiplier : Z) (key : string) :
  In key ["CALL"; "PUT"]%string ->
  populated key (continuous_prices price days multiplier) = true
  <-> (1 <= days)%Z /\ (0 <= price * multiplier)%Z.
Proof.
  intros Hkey.
  assert (Eget : dict_get key (continuous_prices price days multiplier)
                 = Ok (map (fun day => (day, map inject_Z (range_by_5 (price * multiplier + 1))))
                           (range_from_1 days))).
  { destruct Hkey as [<- | [<- | []]]; reflexivity. }
  unfold populated. rewrite Eget. unfold range_from_1.
  pose proof (range_by_5_nonempty (price * multiplier + 1)) as Hr.
  destruct (Z.to_nat days) as [|n] eqn:En.
  - cbn. split; [discriminate | lia].
  - cbn [seq map is_empty negb andb forallb snd].
    destruct (range_by_5 (price * multiplier + 1)) as [|k ks] eqn:Ek.
    + cbn. split; [discriminate|]. intros [_ H]. exfalso. apply Hr; [lia | reflexivity].
    + cbn [map is_empty negb andb]. split.
      * intros _. split; [lia|]. assert (0 < price * multiplier + 1)%Z; [|lia].
        apply Hr. discriminate.
      * intros _. rewrite forallb_forall. intros e He.
        apply in_map_iff in He as [d [<- _]]. reflexivity.
Qed.

(** X20.  On the catalog of [continuous_prices] the bounds of every
    strategy are defined exactly when the catalog spans at least one day
    and the product of price and multiplier is not negative; otherwise
    there is no expiration or no strike to take a minimum of. *)
Theorem continuous_prices_bounds (c : strategy_class) (S : Q) (d price days multiplier : Z) :
  (exists b, bounds (mkStrategy c S d (continuous_prices price days multiplier)) = Ok b)
  <-> (1 <= days)%Z /\ (0 <= price * multiplier)%Z.
Proof.
  rewrite bounds_defined. cbn [cls available_options].
  pose proof (continuous_prices_populated price days multiplier "CALL"
                (or_introl eq_refl)) as Hc.
  pose proof (continuous_prices_populated price days multiplier "PUT"
                (or_intror (or_introl eq_refl))) as Hp.
  destruct c; cbn [consulted forallb]; rewrite ?andb_true_r, ?andb_true_iff; tauto.
Qed.

(** X21.  With the catalog the command line falls back on, [bounds] is
    defined for any strategy and any arguments, and asks for expirations
    from [max(7, days_forward + 2)] to 365 days for both legs: an interval
    with room in it exactly when [days_forward] is at most 363.  The
    continuous [optimize] then raises what the solver raises on these
    bounds, and nothing else. *)
Theorem cli_optimizer_bounds (h : heap) (c : strategy_class) (current_price future_price : Q)
    (days_forward : Z) (volatility interest_rate investment : Q) :
  let o := cli_optimizer c current_price future_price days_forward volatility interest_rate
                         investment in
  let low := inject_Z (py_maxZ 7 (days_forward + 1 + 1)) in
  exists b,
    bounds (so_strategy o) = Ok b /\
    nth 2 b (0, 0) = (low, 365) /\
    nth 4 b (0, 0) = (low, 365) /\
    (low <= 365 <-> (days_forward <= 363)%Z) /\
    StrategyOptimizerBS_optimize price_option_fixed minimize h o
    = match minimize (problem_of price_option_fixed h o b) with
      | Ok res =>
          (Ok tt, mkStrategyOptimizerBS (so_market o) (so_strategy o) true (Some res))
      | Raise e => (Raise e, o)
      end.
Proof.
  intros o low. subst o.
  assert (Hlow : low <= 365 <-> (days_forward <= 363)%Z).
  { subst low. change 365 with (inject_Z 365). rewrite <- Zle_Qle. unfold py_maxZ.
    destruct (7 <? days_forward + 1 + 1)%Z eqn:E; [lia|].
    apply Z.ltb_ge in E. lia. }
  unfold StrategyOptimizerBS_optimize.
  destruct c; eexists; (split; [reflexivity|]); (split; [reflexivity|]);
    (split; [reflexivity|]); (split; [exact Hlow|]); reflexivity.
Qed.

(** ** The strategy registry *)

Lemma find_strategy_name (s : OptionsStrategy) :
  find_strategy (name s) list_strategies = Some (cls s).
Proof. unfold name. destruct (cls s); reflexivity. Qed.

Lemma find_strategy_sound (n : string) (s : OptionsStrategy) :
  find_strategy n list_strategies = Some (cls s) -> n = name s.
Proof.
  unfold list_strategies, name. cbn [find_strategy fst snd].
  repeat match goal with
         | |- context [String.eqb ?a n] => destruct (String.eqb_spec a n); [subst n|]
         end;
    intros H; try discriminate H; injection H as <-; reflexivity.
Qed.

(** X22.  [get_strategy_from_string] finds a strategy class exactly under
    its own class name, letter case included; for any other string it
    fails with a message that quotes the string. *)
Theorem get_strategy_from_string_spec (n : string) (s : OptionsStrategy) :
  (get_strategy_from_string n = inl (cls s) <-> n = name s) /\
  ((forall c, get_strategy_from_string n <> inl c) <->
   get_strategy_from_string n = inr ("No strategy '" ++ n ++ "' is defined.")%string) /\
  (In n list_strategy_names <-> exists c, get_strategy_from_string n = inl c).
Proof.
  unfold get_strategy_from_string. split; [|split].
  - split.
    + destruct (find_strategy n list_strategies) as [c|] eqn:E; [|discriminate].
      intros H. injection H as ->. apply find_strategy_sound. exact E.
    + intros ->. now rewrite find_strategy_name.
  - destruct (find_strategy n list_strategies) as [c|]; split.
    + intros H. exfalso. apply (H c). reflexivity.
    + discriminate.
    + reflexivity.
    + intros _ c. discriminate.
  - split.
    + intros Hin. cbn in Hin.
      destruct Hin as [<- | [<- | [<- | [<- | [<- | []]]]]]; eexists; reflexivity.
    + intros [c H]. destruct (find_strategy n list_strategies) as [c'|] eqn:E; [|discriminate H].
      pose proof (find_strategy_sound n (mkStrategy c' 0 0%Z []) E) as ->.
      destruct c'; cbn; tauto.
Qed.

(** ** Printing helpers *)

Lemma heads_length {T : Type} (rows : list (list T)) (hs : list T) :
  heads rows = Some hs -> List.length hs = List.length rows.
Proof.
  revert hs. induction rows as [|row rows IH]; intros hs H.
  - injection H as <-. reflexivity.
  - cbn in H. destruct row as [|a row]; [discriminate H|].
    destruct (heads rows) as [hs'|]; [|discriminate H]. injection H as <-.
    cbn. now rewrite (IH hs' eq_refl).
Qed.

Lemma heads_nonempty {T : Type} (rows : list (list T)) (hs : list T) (row : list T) :
  heads rows = Some hs -> In row rows -> List.length row = S (List.length (tl row)).
Proof.
  revert hs. induction rows as [|r rows IH]; intros hs H Hin; [destruct Hin|].
  cbn in H. destruct r as [|a r]; [discriminate H|].
  destruct (heads rows) as [hs'|] eqn:E; [|discriminate H].
  destruct Hin as [<- | Hin]; [reflexivity | exact (IH hs' eq_refl Hin)].
Qed.

Lemma transpose_upto_shape {T : Type} (fuel : nat) (rows : list (list T)) :
  Forall (fun col => List.length col = List.length rows) (transpose_upto fuel rows) /\
  forall row, In row rows -> (List.length (transpose_upto fuel rows) <= List.length row)%nat.
Proof.
  revert rows. induction fuel as [|fuel IH]; intros rows.
  - split; [constructor | intros; cbn; lia].
  - cbn [transpose_upto]. destruct (heads rows) as [hs|] eqn:E.
    + destruct (IH (map (@tl T) rows)) as [Hcols Hcount]. split.
      * constructor; [exact (heads_length _ _ E)|].
        rewrite length_map in Hcols. exact Hcols.
      * intros row Hin. cbn [List.length].
        rewrite (heads_nonempty _ _ _ E Hin). apply le_n_S.
        apply Hcount. apply in_map. exact Hin.
    + split; [constructor | intros; cbn; lia].
Qed.

(** X23.  [transpose] returns columns that each hold one entry per row,
    and no more columns than the shortest row has entries; a single row
    becomes one single-entry row per element, which is how the strategy
    names are laid out for printing. *)
Theorem transpose_shape {T : Type} (rows : list (list T)) :
  Forall (fun col => List.length col = List.length rows) (transpose rows) /\
  (forall row, In row rows -> (List.length (transpose rows) <= List.length row)%nat) /\
  forall row : list T, transpose [row] = map (fun a => [a]) row.
Proof.
  split; [|split].
  - unfold transpose. destruct rows as [|row rows]; [constructor|].
    apply transpose_upto_shape.
  - unfold transpose. destruct rows as [|row0 rows]; [intros row []|].
    apply transpose_upto_shape.
  - intros row. unfold transpose. induction row as [|a row IH]; [reflexivity|].
    cbn. f_equal. exact IH.
Qed.

End Further.

(** ** Further properties on the sample inputs *)

(** X1, witness: the search over calls at two expirations. *)
Lemma grid_search_profit_positive_witness :
  fst (GridSearchBS_optimize sample_price initial_heap grid_two_expirations) = Ok tt /\
  exists w,
    _opt_strategy (snd (GridSearchBS_optimize sample_price initial_heap grid_two_expirations))
      = Some w /\
    In w (strats (available_options (gs_strategy grid_two_expirations))
                 (options initial_heap (gs_strategy grid_two_expirations))) /\
    GridSearchBS_max_profit (snd (GridSearchBS_optimize sample_price initial_heap
                                    grid_two_expirations))
      = Ok (combo_profit sample_price (gs_market grid_two_expirations) w) /\
    0 < combo_profit sample_price (gs_market grid_two_expirations) w.
Proof.
  split; [reflexivity|].
  apply (grid_search_profit_positive sample_price initial_heap grid_two_expirations
           (snd (GridSearchBS_optimize sample_price initial_heap grid_two_expirations))).
  reflexivity.
Defined.

(** X3, witness: a bull call spread over a catalog without calls. *)
Lemma grid_search_failed_run_witness :
  fst (GridSearchBS_optimize sample_price initial_heap
         (GridSearchBS_init (mkStrategy BullCallSpread 100 30%Z puts_only) test_market))
    = Raise ZeroDivisionError /\
  ZeroDivisionError = ZeroDivisionError /\
  gs_is_optimized (snd (GridSearchBS_optimize sample_price initial_heap
         (GridSearchBS_init (mkStrategy BullCallSpread 100 30%Z puts_only) test_market))) = true /\
  (exists v, GridSearchBS_max_profit (snd (GridSearchBS_optimize sample_price initial_heap
         (GridSearchBS_init (mkStrategy BullCallSpread 100 30%Z puts_only) test_market))) = Ok v /\
             0 <= v) /\
  GridSearchBS_best_strategy (snd (GridSearchBS_optimize sample_price initial_heap
         (GridSearchBS_init (mkStrategy BullCallSpread 100 30%Z puts_only) test_market)))
    = Raise (AttributeError "_quantity").
Proof.
  split; [reflexivity|].
  apply (grid_search_failed_run sample_price initial_heap
           (mkStrategy BullCallSpread 100 30%Z puts_only) test_market ZeroDivisionError
           (snd (GridSearchBS_optimize sample_price initial_heap
                   (GridSearchBS_init (mkStrategy BullCallSpread 100 30%Z puts_only)
                                      test_market)))).
  reflexivity.
Defined.

(** X8, witness: the strike 150 at 200 days among the calls of the tests. *)
Lemma stats_of_enclose_witness :
  stats_of "CALL" test_catalog = Ok (mkStats 30 365 5 200) /\
  dict_get "CALL" test_catalog = Ok test_chain /\
  In (200%Z, [5; 50; 100; 150; 200]) test_chain /\ In 150 [5; 50; 100; 150; 200] /\
  (30 <= 200 <= 365)%Z /\ 5 <= 150 /\ 150 <= 200.
Proof.
  split; [reflexivity|]. split; [reflexivity|].
  split; [right; right; left; reflexivity|].
  split; [right; right; right; left; reflexivity|].
  apply (stats_of_enclose "CALL" test_catalog (mkStats 30 365 5 200) test_chain
           200%Z [5; 50; 100; 150; 200] 150).
  - reflexivity.
  - reflexivity.
  - right; right; left; reflexivity.
  - right; right; right; left; reflexivity.
Defined.

(** X10, witness: the long straddle of the tests; the guess has 30 days,
    the bounds start at 31. *)
Lemma x0_outside_bounds_witness :
  cls straddle_100 <> BullCallSpread /\
  bounds straddle_100 = Ok [(1, 1000); (5, 200); (31, 365); (5, 200); (31, 365)] /\
  ~ Forall2 within [(1, 1000); (5, 200); (31, 365); (5, 200); (31, 365)] (x0 straddle_100).
Proof.
  split; [discriminate|]. split; [reflexivity|].
  apply (x0_outside_bounds straddle_100).
  - discriminate.
  - reflexivity.
Defined.

(** X12, witness: the same instance, asked for legs -1 and -5. *)
Lemma get_profit_negative_leg_witness :
  declared initial_heap /\
  get_profit sample_price initial_heap
    (mkStrategyOptimizerBS test_market bull_100 true (Some (mkResult [1; 99; 31; 101; 31] 0)))
    105 (Some (-1)%Z)
  = get_profit sample_price initial_heap
      (mkStrategyOptimizerBS test_market bull_100 true (Some (mkResult [1; 99; 31; 101; 31] 0)))
      105 (Some 1%Z) /\
  fst (get_profit sample_price initial_heap
         (mkStrategyOptimizerBS test_market bull_100 true (Some (mkResult [1; 99; 31; 101; 31] 0)))
         105 (Some (-5)%Z)) = Ok 0.
Proof.
  split; [exact initial_heap_declared|].
  destruct (get_profit_negative_leg sample_price sample_price_fixed stalled_minimize
              initial_heap initial_heap continuous_bull_100
              (mkStrategyOptimizerBS test_market bull_100 true
                                     (Some (mkResult [1; 99; 31; 101; 31] 0)))
              105 initial_heap_declared) as [Hone Hnone].
  - vm_compute; reflexivity.
  - split; [exact Hone | apply Hnone; lia].
Defined.

(** X13, witness: reading the optimized bull call spread leaves the legs
    of the long straddle alone. *)
Lemma best_strategy_frame_witness :
  LongStraddle <> BullCallSpread /\
  snd (StrategyOptimizerBS_best_strategy initial_heap
         (mkStrategyOptimizerBS test_market bull_100 true (Some (mkResult [1; 99; 31; 101; 31] 0))))
      LongStraddle
  = initial_heap LongStraddle /\
  List.length
    (snd (StrategyOptimizerBS_best_strategy initial_heap
            (mkStrategyOptimizerBS test_market bull_100 true
                                   (Some (mkResult [1; 99; 31; 101; 31] 0))))
         BullCallSpread)
  = List.length (initial_heap BullCallSpread).
Proof.
  split; [discriminate|].
  apply (best_strategy_frame initial_heap
           (mkStrategyOptimizerBS test_market bull_100 true
                                  (Some (mkResult [1; 99; 31; 101; 31] 0)))
           LongStraddle).
  discriminate.
Defined.

(** X18, witness: a bull call spread and a long straddle side by side. *)
Lemma ParallelStrategyOptimizerBS_optimize_ok_witness :
  fst (ParallelStrategyOptimizerBS_optimize sample_price_fixed stalled_minimize initial_heap
         (ParallelStrategyOptimizerBS_init [bull_100; straddle_100] test_market)) = Ok tt /\
  ps_is_optimized
    (snd (ParallelStrategyOptimizerBS_optimize sample_price_fixed stalled_minimize initial_heap
            (ParallelStrategyOptimizerBS_init [bull_100; straddle_100] test_market))) = true /\
  map so_strategy
      (_strategy_optimizers
         (snd (ParallelStrategyOptimizerBS_optimize sample_price_fixed stalled_minimize
                 initial_heap
                 (ParallelStrategyOptimizerBS_init [bull_100; straddle_100] test_market))))
  = [bull_100; straddle_100] /\
  Forall (fun o => so_is_optimized o = true)
         (_strategy_optimizers
            (snd (ParallelStrategyOptimizerBS_optimize sample_price_fixed stalled_minimize
                    initial_heap
                    (ParallelStrategyOptimizerBS_init [bull_100; straddle_100] test_market)))) /\
  exists v,
    ParallelStrategyOptimizerBS_max_profit
      (snd (ParallelStrategyOptimizerBS_optimize sample_price_fixed stalled_minimize initial_heap
              (ParallelStrategyOptimizerBS_init [bull_100; straddle_100] test_market))) = Ok v.
Proof.
  split; [vm_compute; reflexivity|].
  apply (ParallelStrategyOptimizerBS_optimize_ok sample_price_fixed stalled_minimize initial_heap
           bull_100 [straddle_100] test_market).
  vm_compute; reflexivity.
Defined.

(** X16, witness: two optimized instances with profits 0 and 4; the
    parallel [max_profit] is 4. *)
Lemma ParallelStrategyOptimizerBS_max_profit_greatest_witness :
  let p := mkParallelStrategyOptimizerBS test_market [bull_100; straddle_100] true
             [mkStrategyOptimizerBS test_market bull_100 true
                                    (Some (mkResult [1; 99; 31; 101; 31] 0));
              mkStrategyOptimizerBS test_market straddle_100 true
                                    (Some (mkResult [1; 100; 31; 100; 31] (-4)))] in
  ParallelStrategyOptimizerBS_max_profit p = Ok (- -4) /\
  (exists o, In o (_strategy_optimizers p) /\ StrategyOptimizerBS_max_profit o = Ok (- -4)) /\
  forall o, In o (_strategy_optimizers p) ->
            exists vo, StrategyOptimizerBS_max_profit o = Ok vo /\ vo <= - -4.
Proof.
  cbv zeta. split; [reflexivity|].
  apply (ParallelStrategyOptimizerBS_max_profit_greatest
           (mkParallelStrategyOptimizerBS test_market [bull_100; straddle_100] true
              [mkStrategyOptimizerBS test_market bull_100 true
                                     (Some (mkResult [1; 99; 31; 101; 31] 0));
               mkStrategyOptimizerBS test_market straddle_100 true
                                     (Some (mkResult [1; 100; 31; 100; 31] (-4)))])
           (- -4)).
  reflexivity.
Defined.

(** X17, witness: of the same two instances the long straddle is the best;
    its legs are returned. *)
Lemma ParallelStrategyOptimizerBS_best_strategy_greatest_witness :
  let o1 := mkStrategyOptimizerBS test_market bull_100 true
              (Some (mkResult [1; 99; 31; 101; 31] 0)) in
  let o2 := mkStrategyOptimizerBS test_market straddle_100 true
              (Some (mkResult [1; 100; 31; 100; 31] (-4))) in
  let p := mkParallelStrategyOptimizerBS test_market [bull_100; straddle_100] true [o1; o2] in
  fst (ParallelStrategyOptimizerBS_best_strategy initial_heap p)
    = Ok [(LongStraddle, 0%nat); (LongStraddle, 1%nat)] /\
  exists o v,
    In o (_strategy_optimizers p) /\
    StrategyOptimizerBS_best_strategy initial_heap o
      = (Ok [(LongStraddle, 0%nat); (LongStraddle, 1%nat)],
         snd (ParallelStrategyOptimizerBS_best_strategy initial_heap p)) /\
    StrategyOptimizerBS_max_profit o = Ok v /\
    forall o', In o' (_strategy_optimizers p) ->
               exists v', StrategyOptimizerBS_max_profit o' = Ok v' /\ v' <= v.
Proof.
  cbv zeta. split; [reflexivity|].
  apply (ParallelStrategyOptimizerBS_best_strategy_greatest initial_heap
           (snd (ParallelStrategyOptimizerBS_best_strategy initial_heap
                   (mkParallelStrategyOptimizerBS test_market [bull_100; straddle_100] true
                      [mkStrategyOptimizerBS test_market bull_100 true
                                             (Some (mkResult [1; 99; 31; 101; 31] 0));
                       mkStrategyOptimizerBS test_market straddle_100 true
                                             (Some (mkResult [1; 100; 31; 100; 31] (-4)))])))
           (mkParallelStrategyOptimizerBS test_market [bull_100; straddle_100] true
              [mkStrategyOptimizerBS test_market bull_100 true
                                     (Some (mkResult [1; 99; 31; 101; 31] 0));
               mkStrategyOptimizerBS test_market straddle_100 true
                                     (Some (mkResult [1; 100; 31; 100; 31] (-4)))])
           [(LongStraddle, 0%nat); (LongStraddle, 1%nat)]).
  reflexivity.
Defined.

(** ** The mapping returned by [get_optimized_strategies] *)

Lemma dict_set_In_keys {V : Type} (k k' : string) (v : V) (d : list (string * V)) :
  In k' (map fst (dict_set k v d)) <-> k' = k \/ In k' (map fst d).
Proof.
  induction d as [|[k0 v0] d IH]; cbn.
  - intuition.
  - destruct (String.eqb_spec k k0) as [->|Hne]; cbn; [intuition|].
    rewrite IH. intuition.
Qed.

Lemma dict_set_NoDup {V : Type} (k : string) (v : V) (d : list (string * V)) :
  NoDup (map fst d) -> NoDup (map fst (dict_set k v d)).
Proof.
  induction d as [|[k0 v0] d IH]; cbn; intros Hnd.
  - constructor; [intros [] | constructor].
  - inversion Hnd as [|? ? Hnot Hnd']; subst.
    destruct (String.eqb_spec k k0) as [->|Hne]; cbn.
    + constructor; assumption.
    + constructor; [|exact (IH Hnd')].
      rewrite dict_set_In_keys. intros [E | Hin]; [congruence | contradiction].
Qed.

Lemma collect_strategies_keys (h h' : heap) (os : list StrategyOptimizerBS)
    (acc d : list (string * (Q * list ref))) :
  collect_strategies h os acc = (Ok d, h') ->
  NoDup (map fst acc) ->
  NoDup (map fst d) /\
  forall k, In k (map fst d) <->
            In k (map fst acc) \/ exists o, In o os /\ name (so_strategy o) = k.
Proof.
  revert h acc. induction os as [|o os IH]; intros h acc H Hnd.
  - cbn in H. injection H as <- <-. split; [exact Hnd|].
    intros k. split; [auto | intros [Hin | [o [[] _]]]; exact Hin].
  - cbn [collect_strategies] in H.
    destruct (StrategyOptimizerBS_max_profit o) as [mp|]; [|discriminate H].
    destruct (StrategyOptimizerBS_best_strategy h o) as [[bs|] h1]; [|discriminate H].
    destruct (IH _ _ H (dict_set_NoDup _ _ _ Hnd)) as [Hd Hkeys]. split; [exact Hd|].
    intros k. rewrite Hkeys, dict_set_In_keys. split.
    + intros [[-> | Hin] | [o' [Ho' Hn]]].
      * right. exists o. split; [left; reflexivity | reflexivity].
      * left. exact Hin.
      * right. exists o'. split; [right; exact Ho' | exact Hn].
    + intros [Hin | [o' [[<- | Ho'] Hn]]].
      * left. right. exact Hin.
      * left. left. symmetry. exact Hn.
      * right. exists o'. split; assumption.
Qed.

(** X24.  The mapping [get_optimized_strategies] returns has one entry per
    strategy class name among the optimizers, never two: optimizers over
    the same strategy class are collapsed into a single entry. *)
Theorem get_optimized_strategies_keys (h h' : heap) (p : ParallelStrategyOptimizerBS)
    (d : list (string * (Q * list ref))) :
  get_optimized_strategies h p = (Ok d, h') ->
  NoDup (map fst d) /\
  forall k, In k (map fst d) <->
            exists o, In o (_strategy_optimizers p) /\ name (so_strategy o) = k.
Proof.
  unfold get_optimized_strategies. destruct (ps_is_optimized p); cbn [negb]; [|discriminate].
  intros H. destruct (collect_strategies_keys _ _ _ _ _ H (NoDup_nil _)) as [Hd Hkeys].
  split; [exact Hd|]. intros k. rewrite Hkeys. cbn. intuition.
Qed.

(** X24, witness: two bull call spreads and a long straddle give two
    entries. *)
Lemma get_optimized_strategies_keys_witness :
  let p := mkParallelStrategyOptimizerBS test_market [bull_100; bull_200; straddle_100] true
             [mkStrategyOptimizerBS test_market bull_100 true
                                    (Some (mkResult [1; 99; 31; 101; 31] 0));
              mkStrategyOptimizerBS test_market bull_200 true
                                    (Some (mkResult [1; 199; 31; 201; 31] 0));
              mkStrategyOptimizerBS test_market straddle_100 true
                                    (Some (mkResult [1; 100; 31; 100; 31] (-4)))] in
  let d := [("BullCallSpread"%string, (- 0, [(BullCallSpread, 0%nat); (BullCallSpread, 1%nat)]));
            ("LongStraddle"%string, (- -4, [(LongStraddle, 0%nat); (LongStraddle, 1%nat)]))] in
  fst (get_optimized_strategies initial_heap p) = Ok d /\
  NoDup (map fst d) /\
  forall k, In k (map fst d) <->
            exists o, In o (_strategy_optimizers p) /\ name (so_strategy o) = k.
Proof.
  cbv zeta. split; [vm_compute; reflexivity|].
  eapply (get_optimized_strategies_keys initial_heap).
  rewrite (surjective_pairing (get_optimized_strategies initial_heap _)).
  f_equal.
Defined.
